(** * Ocean data collector: a shallow embedding of [ocean_collector.py]

    The development follows the Python module top to bottom: the Python
    built-ins it relies on, the three SQLite tables, the statements each
    method executes on its cursor, and then the methods of
    [OceanDataCollector] themselves.

    Conventions of the embedding.
    - A Python [float] / SQLite [REAL] that is stored or compared is an
      exact rational ([Q]); NaN (which SQLite would store as NULL) and the
      infinities are outside it, and a decimal literal such as [7.8]
      stands for its exact value.  Where the code computes with such
      numbers (the heat content, [round], the [.1f] and [.2f] formats) the
      computation is done on binary64 values ([PrimFloat]): [Py.float]
      gives the double a REAL holds, the one nearest to the rational.
    - A Python [str] / SQLite [TEXT] is a [string] of bytes.  SQLite
      compares TEXT bytewise, which is [String.compare].
    - A table is the list of its rows in rowid order.  Rows are only ever
      appended, so the AUTOINCREMENT id of a row is its position.
    - What a method reads from its environment (the wall clock, a fresh
      UUID) is an explicit argument. *)

From Stdlib Require Import ZArith QArith Qround Qabs Lqa List String Ascii Bool Lia.
From Stdlib Require Import Floats.PrimFloat Floats.SpecFloat Floats.FloatOps.
From Stdlib Require Import Permutation Sorted OrderedTypeEx DecimalString.
Import ListNotations.

Local Open Scope string_scope.
Local Open Scope list_scope.

(** ** Python built-ins used by the module *)

Module Py.

(** [x < y] on numbers. *)
Definition ltb (x y : Q) : bool := negb (Qle_bool y x).

(** Truthiness of an [Optional[float]]: [None] and zero are falsy. *)
Definition truthy (x : option Q) : bool :=
  match x with
  | None => false
  | Some v => negb (Qeq_bool v 0)
  end.

(** [x or y] where [x : Optional[float]] and [y : float]. *)
Definition or (x : option Q) (y : Q) : Q :=
  match x with
  | Some v => if truthy x then v else y
  | None => y
  end.

(** Round half to even, to an integer. *)
Definition round_half_even (x : Q) : Z :=
  let f := Qfloor x in
  let r := (x - inject_Z f)%Q in
  if ltb r (1 # 2) then f
  else if ltb (1 # 2) r then (f + 1)%Z
  else if Z.even f then f else (f + 1)%Z.

(** [float(q)]: the binary64 value nearest to a rational, ties to even;
    the double of a decimal literal, and the double a REAL column holds. *)
Definition float (q : Q) : PrimFloat.float :=
  match Qnum q with
  | Z0 => 0%float
  | Zpos n =>
      SF2Prim (SFdiv prec emax (S754_finite false n 0)
                 (S754_finite false (Qden q) 0))
  | Zneg n =>
      SF2Prim (SFdiv prec emax (S754_finite true n 0)
                 (S754_finite false (Qden q) 0))
  end.

(** The exact magnitude [m * 2^e] of a finite double. *)
Definition magnitude (m : positive) (e : Z) : Q :=
  match e with
  | Zneg p => Zpos m # (2 ^ p)
  | _ => inject_Z (Zpos m * 2 ^ e)
  end.

(** The exact value of a double; none for the infinities and NaN. *)
Definition value (x : PrimFloat.float) : option Q :=
  match Prim2SF x with
  | S754_zero _ => Some 0%Q
  | S754_finite s m e =>
      Some (if s then (- magnitude m e)%Q else magnitude m e)
  | _ => None
  end.

(** The exact value of the double nearest to a rational. *)
Definition double (q : Q) : Q :=
  match value (float q) with
  | Some v => v
  | None => q
  end.

(** [round(x, 2)] on a double: the exact value is rounded to two
    decimals, half to even, and the decimal is read back as the nearest
    double; zeros, infinities and NaN round to themselves and the sign is
    kept. *)
Definition round2 (x : PrimFloat.float) : PrimFloat.float :=
  match Prim2SF x with
  | S754_finite s m e =>
      let k := round_half_even (magnitude m e * 100) in
      let r := float (inject_Z k / 100) in
      if s then (- r)%float else r
  | _ => x
  end.

(** [c.upper()] on one ASCII character. *)
Definition upper_ascii (c : ascii) : ascii :=
  let n := N_of_ascii c in
  if ((97 <=? n) && (n <=? 122))%N then ascii_of_N (n - 32) else c.

(** [s.upper()], on ASCII text. *)
Fixpoint upper (s : string) : string :=
  match s with
  | EmptyString => EmptyString
  | String c s' => String (upper_ascii c) (upper s')
  end.

(** [s[:n]]. *)
Fixpoint take (n : nat) (s : string) : string :=
  match n, s with
  | S n', String c s' => String c (take n' s')
  | _, _ => EmptyString
  end.

(** [repr] of a list of plain ASCII strings: ['a', 'b']. *)
Definition repr_list (l : list string) : string :=
  ("[" ++ String.concat ", " (map (fun s => "'" ++ s ++ "'") l) ++ "]")%string.

(** [chr(n)] as UTF-8 text, for code points of the Basic Multilingual
    Plane. *)
Definition chr (n : N) : string :=
  if (n <? 128)%N then String (ascii_of_N n) ""
  else if (n <? 2048)%N then
    String (ascii_of_N (192 + n / 64))
      (String (ascii_of_N (128 + n mod 64)) "")
  else
    String (ascii_of_N (224 + n / 4096))
      (String (ascii_of_N (128 + (n / 64) mod 64))
         (String (ascii_of_N (128 + n mod 64)) "")).

(** [len(s)]: code points, that is bytes that are not UTF-8
    continuation bytes. *)
Fixpoint len (s : string) : nat :=
  match s with
  | EmptyString => 0
  | String c s' =>
      let n := N_of_ascii c in
      if ((128 <=? n) && (n <? 192))%N then len s' else S (len s')
  end.

Fixpoint spaces (n : nat) : string :=
  match n with
  | O => ""
  | S n' => String " " (spaces n')
  end.

(** [f"{s:>w}"]: right-align in a field of width [w]. *)
Definition rjust (w : nat) (s : string) : string :=
  (spaces (w - len s) ++ s)%string.

End Py.

(** ** Exceptions *)

Inductive Exn : Type :=
| ValueError (msg : string)      (* raised by the module itself *)
| IntegrityError (msg : string). (* raised by sqlite3 on a constraint *)

(** ** Data model *)

Inductive SensorType : Type :=
| BUOY | ARGO_FLOAT | GLIDER | MOORING | AUV | CTD.

Module SensorTypes.
Definition value (t : SensorType) : string :=
  match t with
  | BUOY => "buoy"
  | ARGO_FLOAT => "argo_float"
  | GLIDER => "glider"
  | MOORING => "mooring"
  | AUV => "auv"
  | CTD => "ctd"
  end.

(** Iteration order of the enum: definition order. *)
Definition members : list SensorType :=
  [BUOY; ARGO_FLOAT; GLIDER; MOORING; AUV; CTD].

(** [[t.value for t in SensorType]] *)
Definition values : list string := map value members.
End SensorTypes.

Module OceanSensor.
Record t : Type := mk {
  id : string;
  name : string;
  type : string;
  lat : Q;
  lon : Q;
  depth_m : Q;
  status : string;
  last_reading_ts : option string
}.
End OceanSensor.

Module OceanReading.
Record t : Type := mk {
  sensor_id : string;
  temperature_c : Q;
  salinity_psu : Q;
  ph : Q;
  dissolved_o2_mgl : Q;
  current_ms : Q;
  depth_m : Q;
  timestamp : string
}.
End OceanReading.

(** A row of the [anomalies] table (without its autoincrement id). *)
Module Anomaly.
Record t : Type := mk {
  sensor_id : string;
  type : string;
  value : Q;
  severity : string;
  timestamp : string
}.
End Anomaly.

(** ** The database *)

Record Store : Type := mkStore {
  sensors : list OceanSensor.t;
  readings : list OceanReading.t;
  anomalies : list Anomaly.t
}.

(** What the wall clock yields during one call:
    [now] is [datetime.now().isoformat()], and [hours_ago h] is
    [(datetime.now() - timedelta(hours=h)).isoformat()].  The arithmetic
    of the [datetime] library (and its range errors) is not modelled. *)
Record Clock : Type := mkClock {
  now : string;
  hours_ago : Z -> string
}.

(** *** Statements executed on a cursor

    A cursor computation reads and updates the connection's view of the
    database. *)

Definition Cursor (A : Type) : Type := Store -> A * Store.

Definition ret {A} (a : A) : Cursor A := fun db => (a, db).

Definition bind {A B} (c : Cursor A) (k : A -> Cursor B) : Cursor B :=
  fun db => let (a, db') := c db in k a db'.

Declare Scope cursor_scope.
Delimit Scope cursor_scope with cursor.
Notation "x <- c ;; k" := (bind c (fun x => k))
  (at level 61, c at next level, right associativity) : cursor_scope.
Notation "c ;; k" := (bind c (fun _ => k))
  (at level 61, right associativity) : cursor_scope.
Local Open Scope cursor_scope.

(** A method that opens a connection, runs [body] and commits only when
    [body] finishes without raising: an exception leaves the committed
    database as it was. *)
Definition transaction {A} (body : Cursor (Exn + A)) (db : Store)
  : (Exn + A) * Store :=
  match body db with
  | (inl e, _) => (inl e, db)
  | (inr a, db') => (inr a, db')
  end.

(** [SELECT * FROM sensors WHERE id = ?] followed by [fetchone()]. *)
Definition select_sensor (sensor_id : string) : Cursor (option OceanSensor.t) :=
  fun db =>
    (find (fun s => OceanSensor.id s =? sensor_id) (sensors db), db).

(** [INSERT INTO sensors VALUES (...)]; [id] is the primary key. *)
Definition insert_sensor (s : OceanSensor.t) : Cursor (Exn + unit) :=
  fun db =>
    if existsb (fun s' => OceanSensor.id s' =? OceanSensor.id s) (sensors db)
    then (inl (IntegrityError "UNIQUE constraint failed: sensors.id"), db)
    else (inr tt, mkStore (sensors db ++ [s]) (readings db) (anomalies db)).

(** [INSERT INTO readings (...) VALUES (...)]. *)
Definition insert_reading (r : OceanReading.t) : Cursor unit :=
  fun db => (tt, mkStore (sensors db) (readings db ++ [r]) (anomalies db)).

(** [UPDATE sensors SET last_reading_ts = ? WHERE id = ?]. *)
Definition update_last_reading_ts (timestamp sensor_id : string) : Cursor unit :=
  fun db =>
    (tt,
     mkStore
       (map (fun s =>
               if OceanSensor.id s =? sensor_id
               then OceanSensor.mk (OceanSensor.id s) (OceanSensor.name s)
                      (OceanSensor.type s) (OceanSensor.lat s)
                      (OceanSensor.lon s) (OceanSensor.depth_m s)
                      (OceanSensor.status s) (Some timestamp)
               else s)
            (sensors db))
       (readings db) (anomalies db)).

(** [INSERT INTO anomalies (...) VALUES (...)]. *)
Definition insert_anomaly (a : Anomaly.t) : Cursor unit :=
  fun db => (tt, mkStore (sensors db) (readings db) (anomalies db ++ [a])).

(** [if b: c]. *)
Definition when (b : bool) (c : Cursor unit) : Cursor unit :=
  if b then c else ret tt.

(** [ORDER BY timestamp DESC]: rows with equal timestamps keep their
    rowid order (SQLite leaves that order unspecified). *)
Fixpoint insert_desc (r : OceanReading.t) (l : list OceanReading.t)
  : list OceanReading.t :=
  match l with
  | [] => [r]
  | r' :: l' =>
      if (OceanReading.timestamp r <? OceanReading.timestamp r')%string
      then r' :: insert_desc r l'
      else r :: l
  end.

Definition order_by_timestamp_desc (l : list OceanReading.t)
  : list OceanReading.t :=
  fold_right insert_desc [] l.

(** ** OceanDataCollector *)

(** The demo fleet written by [_initialize_demo_sensors] into an empty
    database. *)
Definition demo_sensors : list OceanSensor.t :=
  [ OceanSensor.mk "S_PACIFIC_01" "Pacific Buoy" "buoy" 35.5 (-120.3) 4000
      "active" None;
    OceanSensor.mk "S_ATLANTIC_01" "Atlantic Mooring" "mooring" 45.2 (-30.1)
      5000 "active" None;
    OceanSensor.mk "S_ARCTIC_01" "Arctic Glider" "glider" 78.5 15.2 3000
      "active" None ].

Definition _initialize_demo_sensors (db : Store) : Store :=
  if (List.length (sensors db) =? 0)%nat
  then mkStore (sensors db ++ demo_sensors) (readings db) (anomalies db)
  else db.

(** The database right after [__init__] on a fresh file. *)
Definition fresh_db : Store := _initialize_demo_sensors (mkStore [] [] []).

(** [deploy_sensor]; [uuid4_hex] is [uuid.uuid4().hex]. *)
Definition deploy_sensor (uuid4_hex : string)
  (name type_ : string) (lat lon depth_m : Q) (db : Store)
  : (Exn + OceanSensor.t) * Store :=
  if negb (existsb (String.eqb type_) SensorTypes.values) then
    (inl (ValueError ("Invalid type. Must be one of "
                        ++ Py.repr_list SensorTypes.values)%string), db)
  else
    let sensor_id := ("S_" ++ Py.upper (Py.take 8 uuid4_hex))%string in
    let sensor :=
      OceanSensor.mk sensor_id name type_ lat lon depth_m "active" None in
    transaction
      (r <- insert_sensor sensor ;;
       match r with
       | inl e => ret (inl e)
       | inr _ => ret (inr sensor)
       end) db.

(** [_check_anomalies]: the three threshold rules, each on its own. *)
Definition _check_anomalies (sensor_id : string) (temp ph o2 : Q)
  (timestamp : string) : Cursor unit :=
  when (Py.ltb 30 temp)
    (insert_anomaly
       (Anomaly.mk sensor_id "high_temperature" temp "warning" timestamp)) ;;
  when (Py.ltb ph 7.8)
    (insert_anomaly
       (Anomaly.mk sensor_id "ocean_acidification" ph "critical" timestamp)) ;;
  when (Py.ltb o2 4)
    (insert_anomaly
       (Anomaly.mk sensor_id "hypoxia" o2 "critical" timestamp)).

(** [ingest_reading]; [current] defaults to [0] and [depth] to [None] at
    the call site. *)
Definition ingest_reading (clk : Clock) (sensor_id : string)
  (temp salinity ph o2 current : Q) (depth : option Q) (db : Store)
  : (Exn + OceanReading.t) * Store :=
  transaction
    (sensor_row <- select_sensor sensor_id ;;
     match sensor_row with
     | None => ret (inl (ValueError ("Sensor " ++ sensor_id ++ " not found")%string))
     | Some sensor_row =>
         let depth := Py.or depth (OceanSensor.depth_m sensor_row) in
         let timestamp := now clk in
         insert_reading
           (OceanReading.mk sensor_id temp salinity ph o2 current depth
              timestamp) ;;
         update_last_reading_ts timestamp sensor_id ;;
         _check_anomalies sensor_id temp ph o2 timestamp ;;
         ret (inr (OceanReading.mk sensor_id temp salinity ph o2 current
                     depth timestamp))
     end) db.

(** [get_latest]. *)
Definition get_latest (sensor_id : string) (db : Store)
  : option OceanReading.t :=
  hd_error
    (order_by_timestamp_desc
       (filter (fun r => OceanReading.sensor_id r =? sensor_id)
          (readings db))).

(** [get_history]. *)
Definition get_history (clk : Clock) (sensor_id : string) (hours : Z)
  (db : Store) : list OceanReading.t :=
  let cutoff := hours_ago clk hours in
  order_by_timestamp_desc
    (filter (fun r => (OceanReading.sensor_id r =? sensor_id)
                      && (cutoff <? OceanReading.timestamp r)%string)
       (readings db)).

(** One entry of [fleet_status]: the sensor's columns and its latest
    reading, if any. *)
Module FleetEntry.
Record t : Type := mk {
  id : string;
  name : string;
  type : string;
  lat : Q;
  lon : Q;
  depth_m : Q;
  status : string;
  last_reading : option OceanReading.t
}.
End FleetEntry.

(** [fleet_status]. *)
Definition fleet_status (db : Store) : list FleetEntry.t :=
  map (fun sensor =>
         let latest := get_latest (OceanSensor.id sensor) db in
         FleetEntry.mk (OceanSensor.id sensor) (OceanSensor.name sensor)
           (OceanSensor.type sensor) (OceanSensor.lat sensor)
           (OceanSensor.lon sensor) (OceanSensor.depth_m sensor)
           (OceanSensor.status sensor) latest)
      (sensors db).

(** The dictionary returned by [calculate_heat_content]. *)
Module HeatContent.
Record t : Type := mk {
  total_heat_content_kj_m2 : float;
  average_heat_kj_m2 : float;
  sensors_sampled : Z
}.
End HeatContent.

(** The simplified heat estimate of one reading, in kJ/m²: a product and
    a quotient of doubles. *)
Definition heat_of (latest : OceanReading.t) : float :=
  (Py.float (OceanReading.temperature_c latest)
   * Py.float (OceanReading.depth_m latest) * 4186 / 1000)%float.

(** [calculate_heat_content]: the loop threads [(total_heat,
    readings_count)]; the running sum is a sum of doubles, and the [0] of
    an empty loop is the number zero. *)
Definition calculate_heat_content (sensor_ids : list string) (db : Store)
  : HeatContent.t :=
  let '(total_heat, readings_count) :=
    fold_left
      (fun '(total_heat, readings_count) sensor_id =>
         match get_latest sensor_id db with
         | Some latest =>
             ((total_heat + heat_of latest)%float, (readings_count + 1)%Z)
         | None => (total_heat, readings_count)
         end)
      sensor_ids (0%float, 0%Z) in
  HeatContent.mk
    (Py.round2 total_heat)
    (if (readings_count >? 0)%Z
     then Py.round2 (total_heat / Py.float (inject_Z readings_count))
     else 0%float)
    readings_count.

(** *** The ASCII heat map *)

Module Fmt.
(** [sorted(set(l))] on numbers. *)
Fixpoint insert_uniq (x : Q) (l : list Q) : list Q :=
  match l with
  | [] => [x]
  | y :: l' =>
      if Py.ltb x y then x :: l
      else if Qeq_bool x y then l
      else y :: insert_uniq x l'
  end.

Definition sorted_set (l : list Q) : list Q :=
  fold_right insert_uniq [] l.

Definition digits (n : Z) : string :=
  NilZero.string_of_uint (N.to_uint (Z.to_N n)).

(** [f"{x:.1f}"]: the exact value of the double, rounded to one decimal,
    half to even. *)
Definition f1 (x : Q) : string :=
  let x := Py.double x in
  let n := Z.abs (Py.round_half_even (x * 10)) in
  ((if Py.ltb x 0 then "-" else "")
   ++ digits (n / 10) ++ "." ++ digits (n mod 10))%string.

Definition newline : string := String (ascii_of_N 10) "".
End Fmt.

(** The glyph of a cell whose sensor has a latest reading. *)
Definition heatmap_char (parameter : string) (last_reading : OceanReading.t)
  : string :=
  if parameter =? "temperature" then
    let val := OceanReading.temperature_c last_reading in
    if Py.ltb 25 val then Py.chr 0x2588
    else if Py.ltb 15 val then Py.chr 0x2589
    else "."
  else if parameter =? "salinity" then
    let val := OceanReading.salinity_psu last_reading in
    if Py.ltb 35 val then "*"
    else if Py.ltb 33 val then "o"
    else "."
  else "?".

(** The text one grid position adds to its row: the body of the inner
    loop.  [sensor_at] is the first fleet entry at exactly these
    coordinates. *)
Definition sensor_at (fleet : list FleetEntry.t) (lat lon : Q)
  : option FleetEntry.t :=
  find (fun s => Qeq_bool (FleetEntry.lat s) lat
                 && Qeq_bool (FleetEntry.lon s) lon) fleet.

Definition heatmap_cell (parameter : string) (fleet : list FleetEntry.t)
  (lat lon : Q) : string :=
  match sensor_at fleet lat lon with
  | Some s =>
      match FleetEntry.last_reading s with
      | Some last_reading => Py.rjust 6 (heatmap_char parameter last_reading)
      | None => "     ?"
      end
  | None => "     ?"
  end.

(** [heatmap_ascii]. *)
Definition heatmap_ascii (parameter : string) (db : Store) : string :=
  let fleet := fleet_status db in
  if match fleet with [] => true | _ => false end
     || negb (existsb
                (fun s => match FleetEntry.last_reading s with
                          | Some _ => true
                          | None => false
                          end) fleet)
  then "No data available"
  else
    let lats := Fmt.sorted_set (map FleetEntry.lat fleet) in
    let lons := Fmt.sorted_set (map FleetEntry.lon fleet) in
    let header :=
      ("    " ++ String.concat ""
                   (map (fun lon => Py.rjust 6 (Fmt.f1 lon)) lons))%string in
    let rows :=
      map (fun lat =>
             fold_left
               (fun row lon =>
                  (row ++ heatmap_cell parameter fleet lat lon)%string)
               lons (Py.rjust 3 (Fmt.f1 lat)))
          (rev lats) in
    String.concat Fmt.newline (header :: rows).

(** ** Vocabulary of the properties *)

(** The rows a rule contributes: one when its condition holds. *)
Definition rule (breached : bool) (a : Anomaly.t) : list Anomaly.t :=
  if breached then [a] else [].

Definition high_temperature (sensor_id : string) (temp : Q) (ts : string) :=
  Anomaly.mk sensor_id "high_temperature" temp "warning" ts.
Definition ocean_acidification (sensor_id : string) (ph : Q) (ts : string) :=
  Anomaly.mk sensor_id "ocean_acidification" ph "critical" ts.
Definition hypoxia (sensor_id : string) (o2 : Q) (ts : string) :=
  Anomaly.mk sensor_id "hypoxia" o2 "critical" ts.

(** The anomaly rows of one reading, in the order the rules run. *)
Definition triggered (sensor_id : string) (temp ph o2 : Q) (ts : string)
  : list Anomaly.t :=
  rule (Py.ltb 30 temp) (high_temperature sensor_id temp ts)
  ++ rule (Py.ltb ph 7.8) (ocean_acidification sensor_id ph ts)
  ++ rule (Py.ltb o2 4) (hypoxia sensor_id o2 ts).

(** The anomaly rows a call added: those past the rows already there. *)
Definition produced_anomalies (db db' : Store) : list Anomaly.t :=
  skipn (List.length (anomalies db)) (anomalies db').

Definition has_type (ty : string) (a : Anomaly.t) : bool :=
  Anomaly.type a =? ty.

Definition has_severity (sev : string) (a : Anomaly.t) : bool :=
  Anomaly.severity a =? sev.

(** The reading an ingest builds for a sensor row. *)
Definition ingested (clk : Clock) (sensor_id : string)
  (temp salinity ph o2 current : Q) (depth : option Q)
  (sensor_row : OceanSensor.t) : OceanReading.t :=
  OceanReading.mk sensor_id temp salinity ph o2 current
    (Py.or depth (OceanSensor.depth_m sensor_row)) (now clk).

(** The sentence of the specification on acidification with hypoxia, read
    literally: such an ingest adds two anomaly rows and no more. *)
Definition adds_exactly_two (db db' : Store) : Prop :=
  List.length (produced_anomalies db db') = 2%nat.

(** Most recent first: a row is followed only by rows that are not
    later. *)
Definition not_later (a b : OceanReading.t) : Prop :=
  (OceanReading.timestamp b <=? OceanReading.timestamp a)%string = true.

(** The timestamps SQLite would have to order below the new one. *)
Definition later_than_stored (clk : Clock) (sensor_id : string) (db : Store)
  : Prop :=
  forall r, In r (readings db) ->
            OceanReading.sensor_id r = sensor_id ->
            (OceanReading.timestamp r <? now clk)%string = true.

(** The id [deploy_sensor] derives from the UUID. *)
Definition new_sensor_id (uuid4_hex : string) : string :=
  ("S_" ++ Py.upper (Py.take 8 uuid4_hex))%string.

(** What holds of a sensor [deploy_sensor] has created. *)
Definition newly_deployed (uuid4_hex name type_ : string) (lat lon depth_m : Q)
  (db : Store) (sensor : OceanSensor.t) (db' : Store) : Prop :=
  OceanSensor.status sensor = "active"
  /\ OceanSensor.last_reading_ts sensor = None
  /\ String.prefix "S_" (OceanSensor.id sensor) = true
  /\ OceanSensor.id sensor = new_sensor_id uuid4_hex
  /\ OceanSensor.name sensor = name
  /\ OceanSensor.type sensor = type_
  /\ OceanSensor.lat sensor = lat
  /\ OceanSensor.lon sensor = lon
  /\ OceanSensor.depth_m sensor = depth_m
  /\ sensors db' = sensors db ++ [sensor]
  /\ readings db' = readings db
  /\ anomalies db' = anomalies db
  /\ select_sensor (OceanSensor.id sensor) db' = (Some sensor, db').

(** The rows the query's WHERE clause keeps. *)
Definition in_window (cutoff sensor_id : string) (r : OceanReading.t) : bool :=
  (OceanReading.sensor_id r =? sensor_id)
  && (cutoff <? OceanReading.timestamp r)%string.

(** The latest readings of the listed sensors, one per listed id that has
    any reading, in list order. *)
Definition latest_readings (sensor_ids : list string) (db : Store)
  : list OceanReading.t :=
  flat_map (fun sensor_id =>
              match get_latest sensor_id db with
              | Some latest => [latest]
              | None => []
              end) sensor_ids.

(** The running total of the loop: the doubles are added from 0, left to
    right. *)
Definition float_sum (l : list float) : float :=
  fold_left PrimFloat.add l 0%float.

(** [r] is the double [x] rounded to two decimals: for a finite [x] other
    than zero there is an integer [k] of hundredths, the nearest to a
    hundred times the exact magnitude of [x] and the even one of the two
    at a tie, such that [r] is the double nearest to [k / 100], with the
    sign of [x]; zeros, infinities and NaN are left as they are. *)
Definition rounds_to_two_decimals (x r : float) : Prop :=
  match Prim2SF x with
  | S754_finite s m e =>
      exists k : Z,
        (Qabs (inject_Z k - Py.magnitude m e * 100) <= 1 # 2)%Q
        /\ ((Qabs (inject_Z k - Py.magnitude m e * 100) == 1 # 2)%Q ->
            Z.even k = true)
        /\ r = (if s then (- Py.float (inject_Z k / 100))%float
                else Py.float (inject_Z k / 100))
  | _ => r = x
  end.

(** The sentence of the specification on heat content, read literally:
    the total is the sum of the per-sensor heats and the average is that
    sum over the number of sensors sampled. *)
Definition unrounded_heat_content (sensor_ids : list string) (db : Store)
  (h : HeatContent.t) : Prop :=
  let heats := map heat_of (latest_readings sensor_ids db) in
  let n := Z.of_nat (List.length heats) in
  PrimFloat.eqb (HeatContent.total_heat_content_kj_m2 h) (float_sum heats)
  = true
  /\ ((0 < n)%Z ->
      PrimFloat.eqb (HeatContent.average_heat_kj_m2 h)
        (float_sum heats / Py.float (inject_Z n)) = true)
  /\ HeatContent.sensors_sampled h = n.

(** The field a sensor without a reading adds to its row. *)
Definition unknown_cell : string := "     ?".

(** The sentence of the specification on the unknown glyph, read
    literally: wherever one cell shows a sensor with a reading and another a
    sensor without, the two cells differ. *)
Definition unknown_glyph_is_distinct (parameter : string)
  (fleet : list FleetEntry.t) : Prop :=
  forall lat lon lat' lon' s s' r,
    sensor_at fleet lat lon = Some s ->
    FleetEntry.last_reading s = Some r ->
    sensor_at fleet lat' lon' = Some s' ->
    FleetEntry.last_reading s' = None ->
    heatmap_cell parameter fleet lat lon
    <> heatmap_cell parameter fleet lat' lon'.

(** ** Sample runs on the demo fleet *)

(** A clock that reads [ts]; its cutoffs are not used. *)
Definition clock_at (ts : string) : Clock := mkClock ts (fun _ => "").

(** A warm reading of the Pacific buoy on the fresh database. *)
Definition db_one_reading : Store :=
  snd (ingest_reading (clock_at "2024-03-01T12:00:00.000000") "S_PACIFIC_01"
         32 35 8 5 0 None fresh_db).

(** A reading that breaches all three rules. *)
Definition db_hot_acid_hypoxic : Store :=
  snd (ingest_reading (clock_at "2024-03-01T12:00:00") "S_PACIFIC_01"
         31 35 7 3 0 None fresh_db).

(** A second reading of the Pacific buoy, taken when the clock reads half
    an hour earlier than at the first. *)
Definition db_clock_stepped_back : Store :=
  snd (ingest_reading (clock_at "2024-03-01T11:30:00.000000") "S_PACIFIC_01"
         10 35 8 6 0 None db_one_reading).

(** Noon of 2 March; 24 hours earlier is noon of 1 March. *)
Definition clock_noon : Clock :=
  mkClock "2024-03-02T12:00:00.000000"
    (fun h => if (h =? 24)%Z then "2024-03-01T12:00:00.000000"
              else "2024-03-02T12:00:00.000000").

(** Three readings: one before noon of 1 March, one exactly then, one
    after. *)
Definition db_three_readings : Store :=
  snd (ingest_reading (clock_at "2024-03-02T09:00:00.000000") "S_PACIFIC_01"
         21 35 8 6 0 None
         (snd (ingest_reading (clock_at "2024-03-01T12:00:00.000000")
                 "S_PACIFIC_01" 20 35 8 6 0 None
                 (snd (ingest_reading (clock_at "2024-02-29T10:00:00.000000")
                         "S_PACIFIC_01" 19 35 8 6 0 None fresh_db))))).

(** One reading of 1 °C at depth 1 m: its heat is 4.186. *)
Definition db_unit_reading : Store :=
  snd (ingest_reading (clock_at "2024-03-01T12:00:00") "S_PACIFIC_01"
         1 35 8 6 0 (Some 1%Q) fresh_db).

(** One reading of 1 °C at depth 7.5 m: its heat is the double next
    below 31.395. *)
Definition db_tie_reading : Store :=
  snd (ingest_reading (clock_at "2024-03-01T12:00:00") "S_PACIFIC_01"
         1 35 8 6 0 (Some 7.5%Q) fresh_db).

(** ** The remaining queries and reports *)

(** [ORDER BY timestamp DESC] on anomaly rows; equal timestamps keep
    their rowid order. *)
Fixpoint insert_anomaly_desc (a : Anomaly.t) (l : list Anomaly.t)
  : list Anomaly.t :=
  match l with
  | [] => [a]
  | a' :: l' =>
      if (Anomaly.timestamp a <? Anomaly.timestamp a')%string
      then a' :: insert_anomaly_desc a l'
      else a :: l
  end.

Definition order_anomalies_desc (l : list Anomaly.t) : list Anomaly.t :=
  fold_right insert_anomaly_desc [] l.

(** [detect_anomalies]: the rows of the last 24 hours, as dictionaries
    with the five columns of an anomaly row. *)
Definition detect_anomalies (clk : Clock) (db : Store) : list Anomaly.t :=
  let cutoff := hours_ago clk 24 in
  order_anomalies_desc
    (filter (fun a => (cutoff <? Anomaly.timestamp a)%string)
       (anomalies db)).

Module Summary.
(** [f"{x:.2f}"]: the exact value of the double, rounded to two
    decimals, half to even. *)
Definition f2 (x : Q) : string :=
  let x := Py.double x in
  let n := Z.abs (Py.round_half_even (x * 100)) in
  ((if Py.ltb x 0 then "-" else "")
   ++ Fmt.digits (n / 100) ++ "."
   ++ Fmt.digits ((n mod 100) / 10) ++ Fmt.digits (n mod 10))%string.

(** The dictionary [by_severity]: keys in insertion order. *)
Definition groups : Type := list (string * list Anomaly.t).

(** [by_severity.setdefault(sev, []).append(anom)]. *)
Fixpoint setdefault_append (by_severity : groups) (sev : string)
  (anom : Anomaly.t) : groups :=
  match by_severity with
  | [] => [(sev, [anom])]
  | (k, v) :: d =>
      if k =? sev then (k, v ++ [anom]) :: d
      else (k, v) :: setdefault_append d sev anom
  end.

(** [by_severity[sev]], or [None] when [sev not in by_severity]. *)
Fixpoint get (by_severity : groups) (sev : string)
  : option (list Anomaly.t) :=
  match by_severity with
  | [] => None
  | (k, v) :: d => if k =? sev then Some v else get d sev
  end.

(** The loop that fills [by_severity]. *)
Definition group_by_severity (anomalies : list Anomaly.t) : groups :=
  fold_left (fun d anom => setdefault_append d (Anomaly.severity anom) anom)
    anomalies [].

(** One bullet line of the summary. *)
Definition line (anom : Anomaly.t) : string :=
  ("    " ++ Py.chr 0x2022 ++ " " ++ Anomaly.type anom ++ ": "
   ++ f2 (Anomaly.value anom) ++ " (" ++ Anomaly.sensor_id anom ++ ")"
   ++ Fmt.newline)%string.

(** The heading of a severity group. *)
Definition heading (sev : string) : string :=
  (Fmt.newline ++ "  " ++ Py.upper sev ++ ":" ++ Fmt.newline)%string.
End Summary.

(** [alert_summary]. *)
Definition alert_summary (clk : Clock) (db : Store) : string :=
  let anomalies := detect_anomalies clk db in
  match anomalies with
  | [] => (Py.chr 0x2713 ++ " No active anomalies")%string
  | _ :: _ =>
      let summary :=
        (Py.chr 0x26A0 ++ " "
         ++ Fmt.digits (Z.of_nat (List.length anomalies))
         ++ " anomalies detected:" ++ Fmt.newline)%string in
      let by_severity := Summary.group_by_severity anomalies in
      fold_left
        (fun summary sev =>
           match Summary.get by_severity sev with
           | Some group =>
               fold_left
                 (fun summary anom => (summary ++ Summary.line anom)%string)
                 (firstn 3 group)
                 (summary ++ Summary.heading sev)%string
           | None => summary
           end)
        ["critical"; "warning"; "info"] summary
  end.

(** The dictionary [export_netcdf_stub] hands to [json.dump]; writing it
    to the file is not modelled. *)
Module NetCDF.
Record variable : Type := mkVar {
  units : string;
  data : list Q
}.

Record t : Type := mk {
  dim_time : string;
  dim_station : Z;
  time : variable;
  lat : variable;
  lon : variable;
  depth : variable;
  temperature : variable;
  salinity : variable;
  ph : variable;
  dissolved_oxygen : variable;
  title : string;
  source : string;
  created : string
}.

(** [v["data"].append(x)]. *)
Definition append (v : variable) (x : Q) : variable :=
  mkVar (units v) (data v ++ [x]).
End NetCDF.

(** [export_netcdf_stub], up to the call of [json.dump]. *)
Definition export_netcdf_stub (clk : Clock) (db : Store) : NetCDF.t :=
  let netcdf_stub :=
    NetCDF.mk "unlimited" (Z.of_nat (List.length (sensors db)))
      (NetCDF.mkVar "seconds since 2020-01-01" [])
      (NetCDF.mkVar "degrees_north" [])
      (NetCDF.mkVar "degrees_east" [])
      (NetCDF.mkVar "meters" [])
      (NetCDF.mkVar "degC" [])
      (NetCDF.mkVar "PSU" [])
      (NetCDF.mkVar "pH" [])
      (NetCDF.mkVar "mg/L" [])
      "BlackRoad Ocean Data Collection" "Distributed Sensor Network"
      (now clk) in
  fold_left
    (fun stub sensor =>
       match get_latest (OceanSensor.id sensor) db with
       | Some latest =>
           NetCDF.mk (NetCDF.dim_time stub) (NetCDF.dim_station stub)
             (NetCDF.time stub)
             (NetCDF.append (NetCDF.lat stub) (OceanSensor.lat sensor))
             (NetCDF.append (NetCDF.lon stub) (OceanSensor.lon sensor))
             (NetCDF.append (NetCDF.depth stub) (OceanReading.depth_m latest))
             (NetCDF.append (NetCDF.temperature stub)
                (OceanReading.temperature_c latest))
             (NetCDF.append (NetCDF.salinity stub)
                (OceanReading.salinity_psu latest))
             (NetCDF.append (NetCDF.ph stub) (OceanReading.ph latest))
             (NetCDF.append (NetCDF.dissolved_oxygen stub)
                (OceanReading.dissolved_o2_mgl latest))
             (NetCDF.title stub) (NetCDF.source stub) (NetCDF.created stub)
       | None => stub
       end)
    (sensors db) netcdf_stub.

(** ** Vocabulary of the further properties *)

(** The databases the program can produce: it starts on an empty file,
    every start runs [_initialize_demo_sensors], and the only writers are
    [deploy_sensor] and [ingest_reading], whether they succeed or raise. *)
Inductive reachable : Store -> Prop :=
| reach_empty : reachable (mkStore [] [] [])
| reach_init db :
    reachable db -> reachable (_initialize_demo_sensors db)
| reach_deploy db uuid4_hex name type_ lat lon depth_m :
    reachable db ->
    reachable (snd (deploy_sensor uuid4_hex name type_ lat lon depth_m db))
| reach_ingest db clk sensor_id temp salinity ph o2 current depth :
    reachable db ->
    reachable
      (snd (ingest_reading clk sensor_id temp salinity ph o2 current depth
              db)).

(** The stored readings of one sensor, in rowid order. *)
Definition readings_of (sensor_id : string) (db : Store)
  : list OceanReading.t :=
  filter (fun r => OceanReading.sensor_id r =? sensor_id) (readings db).

(** The timestamp of the reading inserted last for a sensor. *)
Definition last_inserted_ts (sensor_id : string) (db : Store)
  : option string :=
  option_map OceanReading.timestamp (hd_error (rev (readings_of sensor_id db))).

(** Keys and references are in order: sensor ids are unique, every
    reading and every anomaly names a sensor of the table, and each
    sensor's last-reading timestamp is that of the reading inserted last
    for it (none when it has no reading). *)
Definition consistent (db : Store) : Prop :=
  NoDup (map OceanSensor.id (sensors db))
  /\ (forall r, In r (readings db) ->
                In (OceanReading.sensor_id r)
                  (map OceanSensor.id (sensors db)))
  /\ (forall a, In a (anomalies db) ->
                In (Anomaly.sensor_id a) (map OceanSensor.id (sensors db)))
  /\ (forall s, In s (sensors db) ->
                OceanSensor.last_reading_ts s
                = last_inserted_ts (OceanSensor.id s) db).

(** An anomaly row is backed by a reading: same sensor, same timestamp,
    and the rule of its type breached by the reading's value. *)
Definition backed_by (a : Anomaly.t) (r : OceanReading.t) : Prop :=
  OceanReading.sensor_id r = Anomaly.sensor_id a
  /\ OceanReading.timestamp r = Anomaly.timestamp a
  /\ ((Anomaly.type a = "high_temperature"
       /\ Anomaly.severity a = "warning"
       /\ Anomaly.value a = OceanReading.temperature_c r
       /\ (30 < OceanReading.temperature_c r)%Q)
      \/ (Anomaly.type a = "ocean_acidification"
          /\ Anomaly.severity a = "critical"
          /\ Anomaly.value a = OceanReading.ph r
          /\ (OceanReading.ph r < 7.8)%Q)
      \/ (Anomaly.type a = "hypoxia"
          /\ Anomaly.severity a = "critical"
          /\ Anomaly.value a = OceanReading.dissolved_o2_mgl r
          /\ (OceanReading.dissolved_o2_mgl r < 4)%Q)).

(** Anomaly rows, most recent first. *)
Definition anomaly_not_later (a b : Anomaly.t) : Prop :=
  (Anomaly.timestamp b <=? Anomaly.timestamp a)%string = true.

(** The sensor row after an ingest has touched it. *)
Definition touched (timestamp : string) (s : OceanSensor.t) : OceanSensor.t :=
  OceanSensor.mk (OceanSensor.id s) (OceanSensor.name s) (OceanSensor.type s)
    (OceanSensor.lat s) (OceanSensor.lon s) (OceanSensor.depth_m s)
    (OceanSensor.status s) (Some timestamp).

(** The part of the summary for one severity: nothing when no anomaly
    has it, else the heading and the first three lines. *)
Definition summary_section (sev : string) (anomalies : list Anomaly.t)
  : string :=
  match filter (has_severity sev) anomalies with
  | [] => ""
  | group =>
      (Summary.heading sev
       ++ String.concat "" (map Summary.line (firstn 3 group)))%string
  end.

(** The sensors of the table that have a latest reading, each with it. *)
Definition sampled_sensors (db : Store)
  : list (OceanSensor.t * OceanReading.t) :=
  flat_map (fun sensor =>
              match get_latest (OceanSensor.id sensor) db with
              | Some latest => [(sensor, latest)]
              | None => []
              end) (sensors db).

(** ** Further sample runs *)

(** A database whose table already holds the id [S_0A1B2C3D]. *)
Definition db_test_buoy : Store :=
  snd (deploy_sensor "0a1b2c3d4e5f60718293a4b5c6d7e8f9" "Test Buoy" "buoy"
         10 20 100 fresh_db).

(** The columns of a sensor row that are set at deployment. *)
Definition static_columns (s : OceanSensor.t)
  : string * string * string * Q * Q * Q * string :=
  (OceanSensor.id s, OceanSensor.name s, OceanSensor.type s,
   OceanSensor.lat s, OceanSensor.lon s, OceanSensor.depth_m s,
   OceanSensor.status s).

(** A report clock: noon of 2 March, whose 24 hour cutoff is noon of
    1 March. *)
Definition clock_report : Clock :=
  mkClock "2024-03-02T12:00:00" (fun _ => "2024-03-01T12:00:00").

(** The Arctic glider reports a reading that breaches all three rules, on
    top of the Pacific buoy's. *)
Definition db_two_alerts : Store :=
  snd (ingest_reading (clock_at "2024-03-02T10:00:00") "S_ARCTIC_01"
         31.456 35 7.123 3 0 None db_hot_acid_hypoxic).

(** Every anomaly row is backed by a stored reading. *)
Definition all_backed (db : Store) : Prop :=
  forall a, In a (anomalies db) ->
            exists r, In r (readings db) /\ backed_by a r.

(** What never changes about a sensor row once it is in the table. *)
Definition well_formed_sensor (s : OceanSensor.t) : Prop :=
  OceanSensor.status s = "active"
  /\ In (OceanSensor.type s) SensorTypes.values
  /\ String.prefix "S_" (OceanSensor.id s) = true.

(** A twin of the Arctic glider, deployed at the same coordinates, with
    one reading; the glider itself has none. *)
Definition db_twin : Store :=
  snd (ingest_reading (clock_at "2024-03-02T10:00:00") "S_0A1B2C3D"
         28 35 8 6 0 None
         (snd (deploy_sensor "0a1b2c3d4e5f60718293a4b5c6d7e8f9" "Arctic Twin"
                 "auv" 78.5 15.2 50 fresh_db))).

(** Three readings at depth 1 m, of 0.1, 0.1 and 7.3 °C. *)
Definition db_three_heats : Store :=
  snd (ingest_reading (clock_at "2024-03-01T12:00:00") "S_ARCTIC_01"
         7.3 35 8 6 0 (Some 1%Q)
         (snd (ingest_reading (clock_at "2024-03-01T12:00:00") "S_ATLANTIC_01"
                 0.1 35 8 6 0 (Some 1%Q)
                 (snd (ingest_reading (clock_at "2024-03-01T12:00:00")
                         "S_PACIFIC_01" 0.1 35 8 6 0 (Some 1%Q) fresh_db))))).

(** * Properties *)

(** ** Order facts used throughout *)

Lemma Py_ltb_true (x y : Q) : Py.ltb x y = true <-> (x < y)%Q.
Proof.
  unfold Py.ltb. rewrite negb_true_iff. split; intro H.
  - apply Qnot_le_lt. intro Hle. apply Qle_bool_iff in Hle. congruence.
  - destruct (Qle_bool y x) eqn:E; [|reflexivity].
    apply Qle_bool_iff in E. exfalso. exact (Qlt_not_le _ _ H E).
Qed.

Lemma Py_ltb_false (x y : Q) : Py.ltb x y = false <-> (y <= x)%Q.
Proof.
  unfold Py.ltb. rewrite negb_false_iff. apply Qle_bool_iff.
Qed.

Lemma string_ltb_lt (a b : string) :
  (a <? b)%string = true <-> String_as_OT.lt a b.
Proof.
  unfold String.ltb. rewrite <- String_as_OT.cmp_lt.
  unfold String_as_OT.cmp. destruct (a ?= b)%string; split; congruence.
Qed.

Lemma string_ltb_irrefl (a : string) : (a <? a)%string = false.
Proof.
  unfold String.ltb.
  assert (H : (a ?= a)%string = Eq) by (apply String_as_OT.cmp_eq; reflexivity).
  now rewrite H.
Qed.

Lemma string_ltb_leb (a b : string) :
  (a <? b)%string = true -> (a <=? b)%string = true.
Proof.
  unfold String.ltb, String.leb. destruct (a ?= b)%string; congruence.
Qed.

Lemma string_ltb_false_leb (a b : string) :
  (a <? b)%string = false -> (b <=? a)%string = true.
Proof.
  unfold String.ltb, String.leb. rewrite (String.compare_antisym b a).
  destruct (a ?= b)%string; simpl; congruence.
Qed.

Lemma string_leb_cases (a b : string) :
  (a <=? b)%string = true <-> a = b \/ String_as_OT.lt a b.
Proof.
  rewrite <- String_as_OT.cmp_lt, <- (String_as_OT.cmp_eq a b).
  unfold String.leb, String_as_OT.cmp.
  destruct (a ?= b)%string; split; intro H; auto;
    try discriminate; try (destruct H; discriminate).
Qed.

Lemma string_leb_trans (a b c : string) :
  (a <=? b)%string = true -> (b <=? c)%string = true ->
  (a <=? c)%string = true.
Proof.
  rewrite !string_leb_cases.
  intros [-> | Hab] [-> | Hbc]; auto.
  right. eapply String_as_OT.lt_trans; eassumption.
Qed.

Create HintDb text_order.
#[local] Hint Resolve string_ltb_leb string_ltb_false_leb : text_order.

(** ** Looking a sensor up *)

Lemma select_sensor_absent (sensor_id : string) (db : Store) :
  ~ In sensor_id (map OceanSensor.id (sensors db)) ->
  select_sensor sensor_id db = (None, db).
Proof.
  unfold select_sensor. intro H. f_equal.
  induction (sensors db) as [|s l IH]; simpl in *; [reflexivity|].
  destruct (String.eqb_spec (OceanSensor.id s) sensor_id) as [E|E].
  - exfalso. apply H. now left.
  - apply IH. intro. apply H. now right.
Qed.

Lemma select_sensor_present (sensor_id : string) (db : Store) :
  In sensor_id (map OceanSensor.id (sensors db)) ->
  exists row, select_sensor sensor_id db = (Some row, db)
              /\ OceanSensor.id row = sensor_id
              /\ In row (sensors db).
Proof.
  unfold select_sensor. intro H.
  induction (sensors db) as [|s l IH]; simpl in *; [contradiction|].
  destruct (String.eqb_spec (OceanSensor.id s) sensor_id) as [E|E].
  - exists s. auto.
  - destruct H as [H|H]; [contradiction|].
    destruct (IH H) as (row & Hrow & Hid & Hin).
    exists row. repeat split; auto.
Qed.

(** ** What one ingest writes *)

Lemma check_anomalies_appends sensor_id temp ph o2 ts (db : Store) :
  _check_anomalies sensor_id temp ph o2 ts db
  = (tt, mkStore (sensors db) (readings db)
           (anomalies db ++ triggered sensor_id temp ph o2 ts)).
Proof.
  unfold _check_anomalies, triggered, bind, when, rule, insert_anomaly, ret,
    high_temperature, ocean_acidification, hypoxia.
  destruct (Py.ltb 30 temp), (Py.ltb ph 7.8), (Py.ltb o2 4); simpl;
    rewrite <- ?app_assoc, ?app_nil_r; simpl; try reflexivity.
  now destruct db.
Qed.

Lemma ingest_reading_found clk sensor_id temp salinity ph o2 current depth
  (db : Store) (row : OceanSensor.t) :
  select_sensor sensor_id db = (Some row, db) ->
  ingest_reading clk sensor_id temp salinity ph o2 current depth db
  = (inr (ingested clk sensor_id temp salinity ph o2 current depth row),
     mkStore
       (sensors (snd (update_last_reading_ts (now clk) sensor_id db)))
       (readings db
          ++ [ingested clk sensor_id temp salinity ph o2 current depth row])
       (anomalies db ++ triggered sensor_id temp ph o2 (now clk))).
Proof.
  intro Hsel. unfold ingest_reading, transaction, bind at 1.
  rewrite Hsel. unfold bind, insert_reading, update_last_reading_ts, ret.
  rewrite check_anomalies_appends. reflexivity.
Qed.

Lemma produced_anomalies_app (db : Store) s r (l : list Anomaly.t) :
  produced_anomalies db (mkStore s r (anomalies db ++ l)) = l.
Proof.
  unfold produced_anomalies. simpl.
  rewrite skipn_app, skipn_all, Nat.sub_diag. reflexivity.
Qed.

Lemma ingest_reading_produces clk sensor_id temp salinity ph o2 current depth
  (db : Store) :
  In sensor_id (map OceanSensor.id (sensors db)) ->
  exists row db',
    In row (sensors db)
    /\ OceanSensor.id row = sensor_id
    /\ ingest_reading clk sensor_id temp salinity ph o2 current depth db
       = (inr (ingested clk sensor_id temp salinity ph o2 current depth row),
          db')
    /\ readings db'
       = readings db
           ++ [ingested clk sensor_id temp salinity ph o2 current depth row]
    /\ anomalies db' = anomalies db ++ triggered sensor_id temp ph o2 (now clk)
    /\ produced_anomalies db db' = triggered sensor_id temp ph o2 (now clk).
Proof.
  intro Hin.
  destruct (select_sensor_present _ _ Hin) as (row & Hsel & Hid & Hrow).
  exists row. eexists. split; [exact Hrow|]. split; [exact Hid|].
  split; [apply ingest_reading_found; exact Hsel|].
  simpl. repeat split. apply produced_anomalies_app.
Qed.

Ltac rules_by_cases :=
  unfold triggered, rule, has_type, has_severity,
    high_temperature, ocean_acidification, hypoxia;
  repeat match goal with
    | |- context [Py.ltb ?a ?b] => destruct (Py.ltb a b) eqn:?
    end;
  simpl; try reflexivity; try discriminate; try lia.

(** ** Ingesting for an unknown sensor *)

(** C1: ingesting a reading for a sensor id that is not in the sensors
    table raises the "not found" error, and the database afterwards is the
    database before: no reading row, no change of any sensor's
    last-reading timestamp and no anomaly row. *)
Theorem ingest_unknown_sensor_not_found
  clk sensor_id temp salinity ph o2 current depth (db : Store) :
  ~ In sensor_id (map OceanSensor.id (sensors db)) ->
  ingest_reading clk sensor_id temp salinity ph o2 current depth db
  = (inl (ValueError ("Sensor " ++ sensor_id ++ " not found")%string), db).
Proof.
  intro Habsent. unfold ingest_reading, transaction, bind.
  rewrite (select_sensor_absent _ _ Habsent). reflexivity.
Qed.

Lemma ingest_unknown_sensor_not_found_demo :
  ~ In "S_NOWHERE" (map OceanSensor.id (sensors fresh_db))
  /\ ingest_reading (clock_at "2024-03-01T12:00:00") "S_NOWHERE"
       20 35 8 6 0 None fresh_db
     = (inl (ValueError "Sensor S_NOWHERE not found"), fresh_db).
Proof.
  assert (H : ~ In "S_NOWHERE" (map OceanSensor.id (sensors fresh_db))).
  { simpl. intros [H|[H|[H|[]]]]; discriminate H. }
  split; [exact H|].
  exact (ingest_unknown_sensor_not_found
           (clock_at "2024-03-01T12:00:00") "S_NOWHERE" 20 35 8 6 0 None
           fresh_db H).
Defined.

(** ** The anomaly rules *)

(** C2: an ingest with temperature above 30 adds exactly one
    [high_temperature] row; it has severity [warning], the reading's
    temperature as value, and the reading's sensor and timestamp.  An
    ingest with temperature at most 30 adds no [high_temperature] row. *)
Theorem high_temperature_rule
  clk sensor_id temp salinity ph o2 current depth (db : Store) :
  In sensor_id (map OceanSensor.id (sensors db)) ->
  exists reading db',
    ingest_reading clk sensor_id temp salinity ph o2 current depth db
    = (inr reading, db')
    /\ OceanReading.temperature_c reading = temp
    /\ anomalies db' = anomalies db ++ produced_anomalies db db'
    /\ ((30 < temp)%Q ->
        filter (has_type "high_temperature") (produced_anomalies db db')
        = [Anomaly.mk sensor_id "high_temperature" temp "warning"
             (OceanReading.timestamp reading)])
    /\ ((temp <= 30)%Q ->
        filter (has_type "high_temperature") (produced_anomalies db db')
        = []).
Proof.
  intro Hin.
  destruct (ingest_reading_produces clk sensor_id temp salinity ph o2 current
              depth db Hin) as (row & db' & _ & _ & Hrun & _ & Hanom & Hprod).
  exists (ingested clk sensor_id temp salinity ph o2 current depth row), db'.
  rewrite Hprod. repeat split; auto.
  - intro Hhot. apply Py_ltb_true in Hhot.
    unfold triggered. rewrite Hhot. rules_by_cases.
  - intro Hcool. apply Py_ltb_false in Hcool.
    unfold triggered. rewrite Hcool. rules_by_cases.
Qed.

Lemma high_temperature_rule_demo :
  In "S_PACIFIC_01" (map OceanSensor.id (sensors fresh_db))
  /\ exists reading db',
      ingest_reading (clock_at "2024-03-01T12:00:00") "S_PACIFIC_01"
        32 35 8 5 0 None fresh_db = (inr reading, db')
      /\ filter (has_type "high_temperature") (produced_anomalies fresh_db db')
         = [Anomaly.mk "S_PACIFIC_01" "high_temperature" 32 "warning"
              (OceanReading.timestamp reading)].
Proof.
  assert (H : In "S_PACIFIC_01" (map OceanSensor.id (sensors fresh_db)))
    by (simpl; auto).
  split; [exact H|].
  destruct (high_temperature_rule (clock_at "2024-03-01T12:00:00")
              "S_PACIFIC_01" 32 35 8 5 0 None fresh_db H)
    as (reading & db' & Hrun & _ & _ & Hhot & _).
  exists reading, db'. split; [exact Hrun|].
  apply Hhot. reflexivity.
Defined.

Lemma hot_acid_hypoxic_ingest_adds_three :
  (7 < 7.8)%Q /\ (3 < 4)%Q
  /\ produced_anomalies fresh_db db_hot_acid_hypoxic
     = [high_temperature "S_PACIFIC_01" 31 "2024-03-01T12:00:00";
        ocean_acidification "S_PACIFIC_01" 7 "2024-03-01T12:00:00";
        hypoxia "S_PACIFIC_01" 3 "2024-03-01T12:00:00"]
  /\ ~ adds_exactly_two fresh_db db_hot_acid_hypoxic.
Proof.
  repeat split.
  unfold adds_exactly_two. vm_compute. discriminate.
Qed.

(** C3 (amended): an ingest with pH below 7.8 and dissolved oxygen below 4
    adds exactly two [critical] rows, one [ocean_acidification] carrying
    the pH and one [hypoxia] carrying the oxygen value; these are all the
    rows it adds when the temperature is at most 30, and a
    [high_temperature] row comes before them when it is above 30.  In
    general each rule contributes its row on its own condition, so an
    ingest adds at most three rows, and each of 0, 1, 2 and 3 occurs. *)
Theorem acidification_and_hypoxia_rules :
  (forall clk sensor_id temp salinity ph o2 current depth (db : Store),
      In sensor_id (map OceanSensor.id (sensors db)) ->
      exists reading db',
        ingest_reading clk sensor_id temp salinity ph o2 current depth db
        = (inr reading, db')
        /\ anomalies db' = anomalies db ++ produced_anomalies db db'
        /\ produced_anomalies db db'
           = rule (Py.ltb 30 temp)
               (high_temperature sensor_id temp (now clk))
             ++ rule (Py.ltb ph 7.8)
                  (ocean_acidification sensor_id ph (now clk))
             ++ rule (Py.ltb o2 4) (hypoxia sensor_id o2 (now clk))
        /\ (List.length (produced_anomalies db db') <= 3)%nat
        /\ ((ph < 7.8)%Q -> (o2 < 4)%Q ->
            filter (has_severity "critical") (produced_anomalies db db')
            = [ocean_acidification sensor_id ph (now clk);
               hypoxia sensor_id o2 (now clk)]
            /\ filter (has_type "ocean_acidification")
                 (produced_anomalies db db')
               = [ocean_acidification sensor_id ph (now clk)]
            /\ filter (has_type "hypoxia") (produced_anomalies db db')
               = [hypoxia sensor_id o2 (now clk)]
            /\ ((temp <= 30)%Q ->
                produced_anomalies db db'
                = [ocean_acidification sensor_id ph (now clk);
                   hypoxia sensor_id o2 (now clk)])
            /\ ((30 < temp)%Q ->
                produced_anomalies db db'
                = [high_temperature sensor_id temp (now clk);
                   ocean_acidification sensor_id ph (now clk);
                   hypoxia sensor_id o2 (now clk)])))
  /\ (forall k, (k <= 3)%nat ->
      exists temp ph o2,
      forall clk sensor_id salinity current depth (db : Store),
        In sensor_id (map OceanSensor.id (sensors db)) ->
        List.length
          (produced_anomalies db
             (snd (ingest_reading clk sensor_id temp salinity ph o2 current
                     depth db))) = k).
Proof.
  split.
  - intros clk sensor_id temp salinity ph o2 current depth db Hin.
    destruct (ingest_reading_produces clk sensor_id temp salinity ph o2
                current depth db Hin)
      as (row & db' & _ & _ & Hrun & _ & Hanom & Hprod).
    exists (ingested clk sensor_id temp salinity ph o2 current depth row), db'.
    rewrite Hprod. split; [exact Hrun|]. split; [exact Hanom|].
    split; [reflexivity|]. split; [rules_by_cases|].
    intros Hph Ho2. apply Py_ltb_true in Hph, Ho2.
    unfold triggered. rewrite Hph, Ho2. repeat split.
    + rules_by_cases.
    + rules_by_cases.
    + rules_by_cases.
    + intro Hcool. apply Py_ltb_false in Hcool. now rewrite Hcool.
    + intro Hhot. apply Py_ltb_true in Hhot. now rewrite Hhot.
  - intros k Hk.
    assert (Hcount : forall temp ph o2 n,
               (forall sid ts,
                   List.length (triggered sid temp ph o2 ts) = n) ->
               forall clk sensor_id salinity current depth (db : Store),
                 In sensor_id (map OceanSensor.id (sensors db)) ->
                 List.length
                   (produced_anomalies db
                      (snd (ingest_reading clk sensor_id temp salinity ph o2
                              current depth db))) = n).
    { intros temp ph o2 n Hn clk sensor_id salinity current depth db Hin.
      destruct (ingest_reading_produces clk sensor_id temp salinity ph o2
                  current depth db Hin)
        as (row & db' & _ & _ & Hrun & _ & _ & Hprod).
      rewrite Hrun. simpl. rewrite Hprod. apply Hn. }
    destruct k as [|[|[|[|k]]]]; [| | | |lia].
    + exists 20%Q, 8%Q, 6%Q. apply Hcount. reflexivity.
    + exists 31%Q, 8%Q, 6%Q. apply Hcount. reflexivity.
    + exists 20%Q, 7%Q, 3%Q. apply Hcount. reflexivity.
    + exists 31%Q, 7%Q, 3%Q. apply Hcount. reflexivity.
Qed.

Lemma acidification_and_hypoxia_rules_demo :
  In "S_PACIFIC_01" (map OceanSensor.id (sensors fresh_db))
  /\ (7.5 < 7.8)%Q /\ (3 < 4)%Q /\ (20 <= 30)%Q
  /\ (exists reading db',
         ingest_reading (clock_at "2024-03-01T12:00:00") "S_PACIFIC_01"
           20 34 7.5 3 0 None fresh_db = (inr reading, db')
         /\ produced_anomalies fresh_db db'
            = [ocean_acidification "S_PACIFIC_01" 7.5 "2024-03-01T12:00:00";
               hypoxia "S_PACIFIC_01" 3 "2024-03-01T12:00:00"])
  /\ (3 <= 3)%nat
  /\ (exists temp ph o2,
      forall clk sensor_id salinity current depth (db : Store),
        In sensor_id (map OceanSensor.id (sensors db)) ->
        List.length
          (produced_anomalies db
             (snd (ingest_reading clk sensor_id temp salinity ph o2 current
                     depth db))) = 3%nat).
Proof.
  assert (H : In "S_PACIFIC_01" (map OceanSensor.id (sensors fresh_db)))
    by (simpl; auto).
  assert (Hph : (7.5 < 7.8)%Q) by reflexivity.
  assert (Ho2 : (3 < 4)%Q) by reflexivity.
  assert (Htemp : (20 <= 30)%Q) by (intro Hc; discriminate Hc).
  repeat (split; [assumption|]).
  split; [|split; [exact (le_n 3)|]].
  - destruct (proj1 acidification_and_hypoxia_rules
                (clock_at "2024-03-01T12:00:00") "S_PACIFIC_01"
                20 34 7.5 3 0 None fresh_db H)
      as (reading & db' & Hrun & _ & _ & _ & Hcrit).
    destruct (Hcrit Hph Ho2) as (_ & _ & _ & Hcool & _).
    exists reading, db'. split; [exact Hrun|]. exact (Hcool Htemp).
  - exact (proj2 acidification_and_hypoxia_rules 3%nat (le_n 3)).
Defined.

(** ** Ordering by timestamp *)

Lemma insert_desc_perm (r : OceanReading.t) (l : list OceanReading.t) :
  Permutation (insert_desc r l) (r :: l).
Proof.
  induction l as [|r' l IH]; simpl; [reflexivity|].
  destruct (OceanReading.timestamp r <? OceanReading.timestamp r')%string.
  - rewrite IH. apply perm_swap.
  - reflexivity.
Qed.

Lemma order_by_timestamp_desc_perm (l : list OceanReading.t) :
  Permutation (order_by_timestamp_desc l) l.
Proof.
  induction l as [|r l IH]; simpl; [constructor|].
  rewrite insert_desc_perm. now constructor.
Qed.

Lemma insert_desc_sorted (r : OceanReading.t) (l : list OceanReading.t) :
  Sorted not_later l -> Sorted not_later (insert_desc r l).
Proof.
  induction 1 as [|r' l Hsorted IH Hhd]; simpl.
  - repeat constructor.
  - destruct (OceanReading.timestamp r <? OceanReading.timestamp r')%string
      eqn:E.
    + constructor; [exact IH|].
      destruct Hhd as [|b l Hb]; simpl.
      * constructor. unfold not_later. auto with text_order.
      * destruct (OceanReading.timestamp r <? OceanReading.timestamp b)%string;
          constructor; unfold not_later; auto with text_order.
    + constructor; [now constructor|].
      constructor. unfold not_later. auto with text_order.
Qed.

Lemma not_later_trans : Relations_1.Transitive not_later.
Proof.
  intros a b c Hab Hbc. unfold not_later in *.
  eapply string_leb_trans; eassumption.
Qed.

Lemma order_by_timestamp_desc_sorted (l : list OceanReading.t) :
  StronglySorted not_later (order_by_timestamp_desc l).
Proof.
  apply Sorted_StronglySorted; [exact not_later_trans|].
  induction l as [|r l IH]; simpl; [constructor|].
  now apply insert_desc_sorted.
Qed.

(** A row later than every row before it comes out first. *)
Lemma order_by_timestamp_desc_newest
  (l : list OceanReading.t) (x : OceanReading.t) :
  (forall r, In r l ->
     (OceanReading.timestamp r <? OceanReading.timestamp x)%string = true) ->
  order_by_timestamp_desc (l ++ [x]) = x :: order_by_timestamp_desc l.
Proof.
  induction l as [|a l IH]; intro Hnew; simpl; [reflexivity|].
  rewrite IH by (intros r Hr; apply Hnew; now right).
  simpl. rewrite (Hnew a) by now left. reflexivity.
Qed.

(** ** Reading back what was ingested *)

Lemma get_latest_after_clock_step_back :
  ingest_reading (clock_at "2024-03-01T11:30:00.000000") "S_PACIFIC_01"
    10 35 8 6 0 None db_one_reading
  = (inr (OceanReading.mk "S_PACIFIC_01" 10 35 8 6 0 4000
            "2024-03-01T11:30:00.000000"),
     db_clock_stepped_back)
  /\ get_latest "S_PACIFIC_01" db_clock_stepped_back
     = Some (OceanReading.mk "S_PACIFIC_01" 32 35 8 5 0 4000
               "2024-03-01T12:00:00.000000")
  /\ get_latest "S_PACIFIC_01" db_clock_stepped_back
     <> Some (OceanReading.mk "S_PACIFIC_01" 10 35 8 6 0 4000
                "2024-03-01T11:30:00.000000").
Proof.
  split; [reflexivity|]. split; [reflexivity|].
  vm_compute. discriminate.
Qed.

(** C4 (amended): when the sensor exists and the clock reads later than
    the timestamp of every reading already stored for it, the ingest
    succeeds and [get_latest] on the resulting database returns exactly
    the reading the ingest returned, whose sensor id, temperature,
    salinity, pH, dissolved oxygen and current are the arguments of the
    call and whose timestamp is the clock's reading. *)
Theorem get_latest_after_ingest
  clk sensor_id temp salinity ph o2 current depth (db : Store) :
  In sensor_id (map OceanSensor.id (sensors db)) ->
  later_than_stored clk sensor_id db ->
  exists reading db',
    ingest_reading clk sensor_id temp salinity ph o2 current depth db
    = (inr reading, db')
    /\ get_latest sensor_id db' = Some reading
    /\ OceanReading.sensor_id reading = sensor_id
    /\ OceanReading.temperature_c reading = temp
    /\ OceanReading.salinity_psu reading = salinity
    /\ OceanReading.ph reading = ph
    /\ OceanReading.dissolved_o2_mgl reading = o2
    /\ OceanReading.current_ms reading = current
    /\ OceanReading.timestamp reading = now clk.
Proof.
  intros Hin Hlater.
  destruct (ingest_reading_produces clk sensor_id temp salinity ph o2 current
              depth db Hin) as (row & db' & _ & _ & Hrun & Hread & _ & _).
  exists (ingested clk sensor_id temp salinity ph o2 current depth row), db'.
  split; [exact Hrun|]. split; [|repeat split].
  unfold get_latest. rewrite Hread, filter_app. simpl.
  rewrite String.eqb_refl.
  rewrite order_by_timestamp_desc_newest; [reflexivity|].
  intros r Hr. apply filter_In in Hr. destruct Hr as [Hr Hsid].
  apply String.eqb_eq in Hsid. simpl. now apply Hlater.
Qed.

Lemma get_latest_after_ingest_demo :
  In "S_PACIFIC_01" (map OceanSensor.id (sensors db_one_reading))
  /\ later_than_stored (clock_at "2024-03-01T12:30:00.000000")
       "S_PACIFIC_01" db_one_reading
  /\ exists reading db',
      ingest_reading (clock_at "2024-03-01T12:30:00.000000") "S_PACIFIC_01"
        10 35 8 6 0 None db_one_reading = (inr reading, db')
      /\ get_latest "S_PACIFIC_01" db' = Some reading
      /\ OceanReading.temperature_c reading = 10%Q.
Proof.
  assert (H : In "S_PACIFIC_01"
                (map OceanSensor.id (sensors db_one_reading)))
    by (simpl; auto).
  assert (Hlater : later_than_stored (clock_at "2024-03-01T12:30:00.000000")
                     "S_PACIFIC_01" db_one_reading).
  { intros r [Hr|[]] _. subst r. reflexivity. }
  split; [exact H|]. split; [exact Hlater|].
  destruct (get_latest_after_ingest
              (clock_at "2024-03-01T12:30:00.000000") "S_PACIFIC_01"
              10 35 8 6 0 None db_one_reading H Hlater)
    as (reading & db' & Hrun & Hlatest & _ & Htemp & _).
  exists reading, db'. auto.
Defined.

(** ** Effective depth *)

Lemma effective_depth_cases (depth : option Q) (nominal : Q) :
  Py.or depth nominal
  = match depth with
    | None => nominal
    | Some d => if Qeq_bool d 0 then nominal else d
    end.
Proof.
  destruct depth as [d|]; simpl; [|reflexivity].
  now destruct (Qeq_bool d 0).
Qed.

(** C5: evaluation of the code where the claim fails.  A caller who
    supplies depth 0 for the Pacific buoy, whose nominal depth is 4000,
    gets a reading (returned and stored) at depth 4000, not at the depth
    supplied. *)
Theorem ingest_depth_zero_takes_nominal_depth :
  let run :=
    ingest_reading (clock_at "2024-03-01T12:00:00") "S_PACIFIC_01"
      20 35 8 6 0 (Some 0%Q) fresh_db in
  fst run
  = inr (OceanReading.mk "S_PACIFIC_01" 20 35 8 6 0 4000
           "2024-03-01T12:00:00")
  /\ readings (snd run)
     = [OceanReading.mk "S_PACIFIC_01" 20 35 8 6 0 4000
          "2024-03-01T12:00:00"].
Proof.
  split; reflexivity.
Qed.

(** The depth of the reading an ingest builds, in general: the nominal
    depth stands in when no depth is supplied and when the depth supplied
    is zero. *)
Lemma ingest_effective_depth
  clk sensor_id temp salinity ph o2 current depth (db : Store) :
  In sensor_id (map OceanSensor.id (sensors db)) ->
  exists row reading db',
    In row (sensors db) /\ OceanSensor.id row = sensor_id
    /\ ingest_reading clk sensor_id temp salinity ph o2 current depth db
       = (inr reading, db')
    /\ OceanReading.depth_m reading
       = match depth with
         | None => OceanSensor.depth_m row
         | Some d => if Qeq_bool d 0 then OceanSensor.depth_m row else d
         end.
Proof.
  intro Hin.
  destruct (ingest_reading_produces clk sensor_id temp salinity ph o2 current
              depth db Hin) as (row & db' & Hrow & Hid & Hrun & _).
  exists row, (ingested clk sensor_id temp salinity ph o2 current depth row),
    db'.
  repeat split; auto. apply effective_depth_cases.
Qed.

(** ** Deploying a sensor *)

Lemma type_check_spec (type_ : string) :
  existsb (String.eqb type_) SensorTypes.values = true
  <-> In type_ ["buoy"; "argo_float"; "glider"; "mooring"; "auv"; "ctd"].
Proof.
  rewrite existsb_exists. change SensorTypes.values
    with ["buoy"; "argo_float"; "glider"; "mooring"; "auv"; "ctd"].
  split.
  - intros (x & Hx & E). apply String.eqb_eq in E. now subst.
  - intro H. exists type_. split; [exact H|apply String.eqb_refl].
Qed.

Lemma insert_sensor_fresh (s : OceanSensor.t) (db : Store) :
  ~ In (OceanSensor.id s) (map OceanSensor.id (sensors db)) ->
  insert_sensor s db
  = (inr tt, mkStore (sensors db ++ [s]) (readings db) (anomalies db)).
Proof.
  intro Hfresh. unfold insert_sensor.
  destruct (existsb _ (sensors db)) eqn:E; [|reflexivity].
  exfalso. apply existsb_exists in E. destruct E as (s' & Hs' & E).
  apply String.eqb_eq in E. apply Hfresh. rewrite <- E.
  now apply in_map.
Qed.

Lemma insert_sensor_ok_inv (s : OceanSensor.t) (db db' : Store) (u : unit) :
  insert_sensor s db = (inr u, db') ->
  ~ In (OceanSensor.id s) (map OceanSensor.id (sensors db))
  /\ db' = mkStore (sensors db ++ [s]) (readings db) (anomalies db).
Proof.
  unfold insert_sensor.
  destruct (existsb _ (sensors db)) eqn:E; [discriminate|].
  intro H. inversion H. split; [|reflexivity].
  intro Hin. apply in_map_iff in Hin. destruct Hin as (s' & Hid & Hs').
  assert (Ht : existsb
                 (fun s'0 => OceanSensor.id s'0 =? OceanSensor.id s)
                 (sensors db) = true).
  { apply existsb_exists. exists s'. split; [exact Hs'|].
    now apply String.eqb_eq. }
  congruence.
Qed.

Lemma deploy_sensor_valid_fresh
  uuid4_hex name type_ lat lon depth_m (db : Store) :
  existsb (String.eqb type_) SensorTypes.values = true ->
  ~ In (new_sensor_id uuid4_hex) (map OceanSensor.id (sensors db)) ->
  let sensor :=
    OceanSensor.mk (new_sensor_id uuid4_hex) name type_ lat lon depth_m
      "active" None in
  deploy_sensor uuid4_hex name type_ lat lon depth_m db
  = (inr sensor,
     mkStore (sensors db ++ [sensor]) (readings db) (anomalies db)).
Proof.
  intros Hgood Hfresh sensor. unfold deploy_sensor.
  rewrite Hgood. simpl negb. cbv iota. unfold transaction, bind.
  fold (new_sensor_id uuid4_hex). fold sensor.
  rewrite (insert_sensor_fresh sensor db Hfresh). reflexivity.
Qed.

(** C6: [deploy_sensor] with a type outside the six enumerated ones
    raises the validation error and leaves the database as it was; with
    one of the six the type check lets the call through: it never raises
    that error, and with an unused id it inserts the sensor. *)
Theorem deploy_sensor_type_check
  uuid4_hex name type_ lat lon depth_m (db : Store) :
  (~ In type_ ["buoy"; "argo_float"; "glider"; "mooring"; "auv"; "ctd"] ->
   deploy_sensor uuid4_hex name type_ lat lon depth_m db
   = (inl (ValueError
             "Invalid type. Must be one of ['buoy', 'argo_float', 'glider', 'mooring', 'auv', 'ctd']"),
      db))
  /\ (In type_ ["buoy"; "argo_float"; "glider"; "mooring"; "auv"; "ctd"] ->
      (forall msg,
          fst (deploy_sensor uuid4_hex name type_ lat lon depth_m db)
          <> inl (ValueError msg))
      /\ (~ In (new_sensor_id uuid4_hex) (map OceanSensor.id (sensors db)) ->
          exists sensor,
            deploy_sensor uuid4_hex name type_ lat lon depth_m db
            = (inr sensor,
               mkStore (sensors db ++ [sensor]) (readings db) (anomalies db))
            /\ OceanSensor.type sensor = type_)).
Proof.
  split.
  - intro Hbad. unfold deploy_sensor.
    destruct (existsb (String.eqb type_) SensorTypes.values) eqn:E.
    + apply type_check_spec in E. contradiction.
    + reflexivity.
  - intro Hgood. apply type_check_spec in Hgood. split.
    + intros msg. unfold deploy_sensor. rewrite Hgood. simpl negb. cbv iota.
      unfold transaction, bind, insert_sensor.
      destruct (existsb _ (sensors db)); simpl; discriminate.
    + intro Hfresh. eexists. split.
      * exact (deploy_sensor_valid_fresh uuid4_hex name type_ lat lon depth_m
                 db Hgood Hfresh).
      * reflexivity.
Qed.

Lemma deploy_sensor_type_check_demo :
  ~ In "boat" ["buoy"; "argo_float"; "glider"; "mooring"; "auv"; "ctd"]
  /\ In "buoy" ["buoy"; "argo_float"; "glider"; "mooring"; "auv"; "ctd"]
  /\ ~ In (new_sensor_id "0a1b2c3d4e5f60718293a4b5c6d7e8f9")
         (map OceanSensor.id (sensors fresh_db))
  /\ deploy_sensor "0a1b2c3d4e5f60718293a4b5c6d7e8f9" "Test Buoy" "boat"
       10 20 100 fresh_db
     = (inl (ValueError
               "Invalid type. Must be one of ['buoy', 'argo_float', 'glider', 'mooring', 'auv', 'ctd']"),
        fresh_db)
  /\ exists sensor,
      deploy_sensor "0a1b2c3d4e5f60718293a4b5c6d7e8f9" "Test Buoy" "buoy"
        10 20 100 fresh_db
      = (inr sensor,
         mkStore (sensors fresh_db ++ [sensor]) (readings fresh_db)
           (anomalies fresh_db))
      /\ OceanSensor.type sensor = "buoy".
Proof.
  assert (Hbad : ~ In "boat"
                     ["buoy"; "argo_float"; "glider"; "mooring"; "auv"; "ctd"]).
  { simpl. intros [H|[H|[H|[H|[H|[H|[]]]]]]]; discriminate H. }
  assert (Hgood : In "buoy"
                    ["buoy"; "argo_float"; "glider"; "mooring"; "auv"; "ctd"])
    by (simpl; auto).
  assert (Hfresh : ~ In (new_sensor_id "0a1b2c3d4e5f60718293a4b5c6d7e8f9")
                       (map OceanSensor.id (sensors fresh_db))).
  { simpl. intros [H|[H|[H|[]]]]; discriminate H. }
  repeat (split; [assumption|]). split.
  - exact (proj1 (deploy_sensor_type_check
                    "0a1b2c3d4e5f60718293a4b5c6d7e8f9" "Test Buoy" "boat"
                    10 20 100 fresh_db) Hbad).
  - exact (proj2 (proj2 (deploy_sensor_type_check
                           "0a1b2c3d4e5f60718293a4b5c6d7e8f9" "Test Buoy"
                           "buoy" 10 20 100 fresh_db) Hgood) Hfresh).
Defined.

Lemma select_sensor_appended (s : OceanSensor.t) (db : Store) :
  ~ In (OceanSensor.id s) (map OceanSensor.id (sensors db)) ->
  let db' := mkStore (sensors db ++ [s]) (readings db) (anomalies db) in
  select_sensor (OceanSensor.id s) db' = (Some s, db').
Proof.
  intros Hfresh db'. unfold select_sensor. f_equal. simpl.
  induction (sensors db) as [|a l IH]; simpl in *.
  - now rewrite String.eqb_refl.
  - destruct (String.eqb_spec (OceanSensor.id a) (OceanSensor.id s)) as [E|E].
    + exfalso. apply Hfresh. now left.
    + apply IH. intro. apply Hfresh. now right.
Qed.

Lemma prefix_new_sensor_id (uuid4_hex : string) :
  String.prefix "S_" (new_sensor_id uuid4_hex) = true.
Proof.
  unfold new_sensor_id.
  generalize (Py.upper (Py.take 8 uuid4_hex)). intro tail.
  simpl. now destruct tail.
Qed.

Lemma newly_deployed_intro uuid4_hex name type_ lat lon depth_m (db : Store) :
  ~ In (new_sensor_id uuid4_hex) (map OceanSensor.id (sensors db)) ->
  let sensor :=
    OceanSensor.mk (new_sensor_id uuid4_hex) name type_ lat lon depth_m
      "active" None in
  newly_deployed uuid4_hex name type_ lat lon depth_m db sensor
    (mkStore (sensors db ++ [sensor]) (readings db) (anomalies db)).
Proof.
  intros Hfresh sensor. unfold newly_deployed.
  split; [reflexivity|]. split; [reflexivity|].
  split; [apply prefix_new_sensor_id|].
  repeat (split; [reflexivity|]).
  exact (select_sensor_appended sensor db Hfresh).
Qed.

(** C10: every sensor [deploy_sensor] creates is returned and stored
    with status [active], without a last-reading timestamp and under an
    id that starts with [S_]; the id comes from the fresh UUID alone, and
    nothing the caller passes reaches the status, the id or the
    timestamp.  With one of the six types and an unused id the call does
    create the sensor. *)
Theorem deploy_sensor_creates_active
  uuid4_hex name type_ lat lon depth_m (db : Store) :
  (forall sensor db',
      deploy_sensor uuid4_hex name type_ lat lon depth_m db
      = (inr sensor, db') ->
      newly_deployed uuid4_hex name type_ lat lon depth_m db sensor db')
  /\ (In type_ SensorTypes.values ->
      ~ In (new_sensor_id uuid4_hex) (map OceanSensor.id (sensors db)) ->
      exists sensor db',
        deploy_sensor uuid4_hex name type_ lat lon depth_m db
        = (inr sensor, db')
        /\ newly_deployed uuid4_hex name type_ lat lon depth_m db sensor db').
Proof.
  assert (Hinv : forall sensor db',
             deploy_sensor uuid4_hex name type_ lat lon depth_m db
             = (inr sensor, db') ->
             newly_deployed uuid4_hex name type_ lat lon depth_m db
               sensor db').
  { intros sensor db'. unfold deploy_sensor.
    destruct (existsb (String.eqb type_) SensorTypes.values);
      simpl negb; cbv iota; [|discriminate].
    unfold transaction, bind.
    destruct (insert_sensor _ db) as [[e|u] db1] eqn:E; simpl;
      [discriminate|].
    intro H. apply insert_sensor_ok_inv in E. destruct E as [Hfresh E].
    injection H as <- <-. rewrite E.
    exact (newly_deployed_intro uuid4_hex name type_ lat lon depth_m db
             Hfresh). }
  split; [exact Hinv|].
  intros Hgood Hfresh. do 2 eexists. split.
  - apply deploy_sensor_valid_fresh; [|exact Hfresh].
    apply existsb_exists. exists type_.
    split; [exact Hgood|apply String.eqb_refl].
  - exact (newly_deployed_intro uuid4_hex name type_ lat lon depth_m db
             Hfresh).
Qed.

Lemma deploy_sensor_creates_active_demo :
  In "buoy" SensorTypes.values
  /\ ~ In (new_sensor_id "0a1b2c3d4e5f60718293a4b5c6d7e8f9")
         (map OceanSensor.id (sensors fresh_db))
  /\ exists sensor db',
      deploy_sensor "0a1b2c3d4e5f60718293a4b5c6d7e8f9" "Test Buoy" "buoy"
        10 20 100 fresh_db = (inr sensor, db')
      /\ OceanSensor.id sensor = "S_0A1B2C3D"
      /\ OceanSensor.status sensor = "active"
      /\ OceanSensor.last_reading_ts sensor = None
      /\ sensors db' = sensors fresh_db ++ [sensor].
Proof.
  assert (Hgood : In "buoy" SensorTypes.values) by (simpl; auto).
  assert (Hfresh : ~ In (new_sensor_id "0a1b2c3d4e5f60718293a4b5c6d7e8f9")
                       (map OceanSensor.id (sensors fresh_db))).
  { simpl. intros [H|[H|[H|[]]]]; discriminate H. }
  split; [exact Hgood|]. split; [exact Hfresh|].
  destruct (proj2 (deploy_sensor_creates_active
                     "0a1b2c3d4e5f60718293a4b5c6d7e8f9" "Test Buoy" "buoy"
                     10 20 100 fresh_db) Hgood Hfresh)
    as (sensor & db' & Hrun & _).
  destruct (proj1 (deploy_sensor_creates_active
                     "0a1b2c3d4e5f60718293a4b5c6d7e8f9" "Test Buoy" "buoy"
                     10 20 100 fresh_db) sensor db' Hrun)
    as (Hactive & Hts & _ & Hid & _ & _ & _ & _ & _ & Hrows & _).
  exists sensor, db'. repeat split; assumption.
Defined.

(** ** History window *)

Lemma string_leb_not_ltb (a b : string) :
  (a <=? b)%string = true -> (b <? a)%string = false.
Proof.
  unfold String.ltb, String.leb. rewrite (String.compare_antisym a b).
  destruct (b ?= a)%string; simpl; congruence.
Qed.

(** C7: [get_history] returns exactly the sensor's readings whose
    timestamp is strictly greater than the cutoff, the clock's reading
    minus the window: each such row as often as it is stored, no row at or
    before the cutoff, no row of another sensor; and the list is ordered by
    timestamp, most recent first. *)
Theorem get_history_window (clk : Clock) (sensor_id : string) (hours : Z)
  (db : Store) :
  let cutoff := hours_ago clk hours in
  let history := get_history clk sensor_id hours db in
  (forall r,
      In r history
      <-> In r (readings db)
          /\ OceanReading.sensor_id r = sensor_id
          /\ (cutoff <? OceanReading.timestamp r)%string = true)
  /\ (forall r,
         (OceanReading.timestamp r <=? cutoff)%string = true ->
         ~ In r history)
  /\ Permutation history (filter (in_window cutoff sensor_id) (readings db))
  /\ StronglySorted not_later history.
Proof.
  intros cutoff history.
  assert (Hperm : Permutation history
                    (filter (in_window cutoff sensor_id) (readings db)))
    by apply order_by_timestamp_desc_perm.
  assert (Hmem : forall r,
             In r history
             <-> In r (readings db)
                 /\ OceanReading.sensor_id r = sensor_id
                 /\ (cutoff <? OceanReading.timestamp r)%string = true).
  { intro r. split.
    - intro Hr. apply (Permutation_in _ Hperm) in Hr.
      apply filter_In in Hr. destruct Hr as [Hr Hw].
      apply andb_true_iff in Hw. destruct Hw as [Hs Hc].
      apply String.eqb_eq in Hs. auto.
    - intros (Hr & Hs & Hc).
      apply (Permutation_in _ (Permutation_sym Hperm)).
      apply filter_In. split; [exact Hr|].
      apply andb_true_iff. split; [now apply String.eqb_eq|exact Hc]. }
  split; [exact Hmem|]. split; [|split; [exact Hperm|]].
  - intros r Hold Hr. apply Hmem in Hr. destruct Hr as (_ & _ & Hc).
    apply string_leb_not_ltb in Hold. congruence.
  - apply order_by_timestamp_desc_sorted.
Qed.

Lemma get_history_window_demo :
  get_history clock_noon "S_PACIFIC_01" 24 db_three_readings
  = [OceanReading.mk "S_PACIFIC_01" 21 35 8 6 0 4000
       "2024-03-02T09:00:00.000000"]
  /\ ~ In (OceanReading.mk "S_PACIFIC_01" 20 35 8 6 0 4000
             "2024-03-01T12:00:00.000000")
         (get_history clock_noon "S_PACIFIC_01" 24 db_three_readings).
Proof.
  split; [reflexivity|].
  apply (proj1 (proj2 (get_history_window clock_noon "S_PACIFIC_01" 24
                         db_three_readings))).
  reflexivity.
Defined.

(** ** Heat content *)

Lemma round_half_even_close (x : Q) :
  (x - (1 # 2) <= inject_Z (Py.round_half_even x) <= x + (1 # 2))%Q.
Proof.
  unfold Py.round_half_even.
  pose proof (Qfloor_le x) as Hlo. pose proof (Qlt_floor x) as Hhi.
  rewrite inject_Z_plus in Hhi. change (inject_Z 1) with 1%Q in Hhi.
  set (f := Qfloor x) in *.
  destruct (Py.ltb (x - inject_Z f) (1 # 2)) eqn:E1.
  - apply Py_ltb_true in E1. split; lra.
  - apply Py_ltb_false in E1.
    destruct (Py.ltb (1 # 2) (x - inject_Z f)) eqn:E2.
    + rewrite inject_Z_plus. change (inject_Z 1) with 1%Q. split; lra.
    + apply Py_ltb_false in E2.
      destruct (Z.even f);
        [|rewrite inject_Z_plus; change (inject_Z 1) with 1%Q]; split; lra.
Qed.

Lemma round_half_even_nearest (x : Q) :
  (Qabs (inject_Z (Py.round_half_even x) - x) <= 1 # 2)%Q.
Proof.
  destruct (round_half_even_close x) as [Hlo Hhi].
  apply Qabs_Qle_condition. split; lra.
Qed.

Lemma round_half_even_tie (x : Q) :
  (Qabs (inject_Z (Py.round_half_even x) - x) == 1 # 2)%Q ->
  Z.even (Py.round_half_even x) = true.
Proof.
  unfold Py.round_half_even.
  pose proof (Qfloor_le x) as Hlo. pose proof (Qlt_floor x) as Hhi.
  rewrite inject_Z_plus in Hhi. change (inject_Z 1) with 1%Q in Hhi.
  set (f := Qfloor x) in *.
  destruct (Py.ltb (x - inject_Z f) (1 # 2)) eqn:E1.
  - apply Py_ltb_true in E1. intro Htie. exfalso.
    assert (Hlt : (Qabs (inject_Z f - x) < 1 # 2)%Q)
      by (apply Qabs_Qlt_condition; split; lra).
    rewrite Htie in Hlt. discriminate Hlt.
  - apply Py_ltb_false in E1.
    destruct (Py.ltb (1 # 2) (x - inject_Z f)) eqn:E2.
    + apply Py_ltb_true in E2. intro Htie. exfalso.
      assert (Hlt : (Qabs (inject_Z (f + 1) - x) < 1 # 2)%Q).
      { rewrite inject_Z_plus. change (inject_Z 1) with 1%Q.
        apply Qabs_Qlt_condition; split; lra. }
      rewrite Htie in Hlt. discriminate Hlt.
    + intros _. destruct (Z.even f) eqn:Ef; [exact Ef|].
      rewrite Z.even_add, Ef. reflexivity.
Qed.

(** [Py.round2] does round to two decimals. *)
Lemma round2_rounds (x : float) : rounds_to_two_decimals x (Py.round2 x).
Proof.
  unfold rounds_to_two_decimals, Py.round2.
  destruct (Prim2SF x) as [s| | |s m e]; try reflexivity.
  exists (Py.round_half_even (Py.magnitude m e * 100)).
  split; [apply round_half_even_nearest|].
  split; [apply round_half_even_tie|reflexivity].
Qed.

Lemma heat_content_loop (db : Store) (sensor_ids : list string)
  (total : float) (count : Z) :
  fold_left
    (fun '(total_heat, readings_count) sensor_id =>
       match get_latest sensor_id db with
       | Some latest =>
           ((total_heat + heat_of latest)%float, (readings_count + 1)%Z)
       | None => (total_heat, readings_count)
       end)
    sensor_ids (total, count)
  = (fold_left PrimFloat.add (map heat_of (latest_readings sensor_ids db))
       total,
     (count + Z.of_nat (List.length (latest_readings sensor_ids db)))%Z).
Proof.
  revert total count.
  induction sensor_ids as [|sensor_id l IH]; intros total count; simpl.
  - f_equal. lia.
  - destruct (get_latest sensor_id db) as [latest|]; simpl.
    + rewrite IH. f_equal. lia.
    + apply IH.
Qed.

Lemma calculate_heat_content_eq (sensor_ids : list string) (db : Store) :
  calculate_heat_content sensor_ids db
  = let heats := map heat_of (latest_readings sensor_ids db) in
    let n := Z.of_nat (List.length heats) in
    HeatContent.mk
      (Py.round2 (float_sum heats))
      (if (n >? 0)%Z
       then Py.round2 (float_sum heats / Py.float (inject_Z n))
       else 0%float)
      n.
Proof.
  unfold calculate_heat_content. rewrite heat_content_loop.
  cbv zeta. unfold float_sum. rewrite length_map. reflexivity.
Qed.

Lemma heat_content_of_unit_reading_is_rounded :
  map heat_of (latest_readings ["S_PACIFIC_01"] db_unit_reading)
  = [Py.float 4.186]
  /\ calculate_heat_content ["S_PACIFIC_01"] db_unit_reading
     = HeatContent.mk (Py.float 4.19) (Py.float 4.19) 1
  /\ ~ unrounded_heat_content ["S_PACIFIC_01"] db_unit_reading
         (calculate_heat_content ["S_PACIFIC_01"] db_unit_reading).
Proof.
  split; [vm_compute; reflexivity|]. split; [vm_compute; reflexivity|].
  intros [Htotal _]. vm_compute in Htotal. discriminate Htotal.
Qed.

(** The rounding is the one of the binary value: 1 °C at 7.5 m gives the
    double next below 31.395, and the total is 31.39, not 31.4. *)
Example heat_content_rounds_the_double :
  map heat_of (latest_readings ["S_PACIFIC_01"] db_tie_reading)
  = [Py.float 31.395]
  /\ Py.value (Py.float 31.395) = Some (8836906893831045 # 2 ^ 48)%Q
  /\ (8836906893831045 # 2 ^ 48 < 31.395)%Q
  /\ calculate_heat_content ["S_PACIFIC_01"] db_tie_reading
     = HeatContent.mk (Py.float 31.39) (Py.float 31.39) 1.
Proof.
  split; [vm_compute; reflexivity|]. split; [vm_compute; reflexivity|].
  split; vm_compute; reflexivity.
Qed.

(** C8 (amended): [calculate_heat_content] takes, for each listed sensor
    that has a latest reading, temperature × depth × 4186 / 1000, computed
    on doubles; it adds these values up from 0 in list order and returns
    that sum rounded to two decimals as the total, the sum divided by the
    number of such sensors, rounded to two decimals, as the average (0
    when there is none), and that number as the count sampled.  Rounding
    to two decimals takes the number of hundredths nearest to the exact
    binary value, the even one at a tie, and returns the double nearest to
    it.  On the empty list the total, the average and the count are 0. *)
Theorem calculate_heat_content_rounds (sensor_ids : list string) (db : Store) :
  let heats := map heat_of (latest_readings sensor_ids db) in
  let n := Z.of_nat (List.length heats) in
  let total_heat := float_sum heats in
  let h := calculate_heat_content sensor_ids db in
  (forall latest,
      heat_of latest
      = (Py.float (OceanReading.temperature_c latest)
         * Py.float (OceanReading.depth_m latest) * 4186 / 1000)%float)
  /\ HeatContent.sensors_sampled h = n
  /\ rounds_to_two_decimals total_heat
       (HeatContent.total_heat_content_kj_m2 h)
  /\ ((0 < n)%Z ->
      rounds_to_two_decimals (total_heat / Py.float (inject_Z n))
        (HeatContent.average_heat_kj_m2 h))
  /\ (n = 0%Z -> HeatContent.average_heat_kj_m2 h = 0%float)
  /\ calculate_heat_content [] db = HeatContent.mk 0 0 0.
Proof.
  intros heats n total_heat h.
  assert (Hh : h = HeatContent.mk
                     (Py.round2 total_heat)
                     (if (n >? 0)%Z
                      then Py.round2 (total_heat / Py.float (inject_Z n))
                      else 0%float)
                     n)
    by apply calculate_heat_content_eq.
  split; [reflexivity|]. rewrite Hh. cbn [HeatContent.sensors_sampled
    HeatContent.total_heat_content_kj_m2 HeatContent.average_heat_kj_m2].
  split; [reflexivity|]. split; [apply round2_rounds|].
  split; [|split; [|reflexivity]].
  - intro Hpos. apply Z.gtb_lt in Hpos. rewrite Hpos. apply round2_rounds.
  - intros ->. reflexivity.
Qed.

Lemma calculate_heat_content_rounds_demo :
  (0 < Z.of_nat
         (List.length
            (map heat_of (latest_readings ["S_PACIFIC_01"] db_tie_reading))))%Z
  /\ HeatContent.total_heat_content_kj_m2
       (calculate_heat_content ["S_PACIFIC_01"] db_tie_reading)
     = Py.float 31.39
  /\ HeatContent.average_heat_kj_m2
       (calculate_heat_content ["S_PACIFIC_01"] db_tie_reading)
     = Py.float 31.39.
Proof.
  assert (Hpos : (0 < Z.of_nat
                        (List.length
                           (map heat_of
                              (latest_readings ["S_PACIFIC_01"]
                                 db_tie_reading))))%Z) by reflexivity.
  split; [exact Hpos|].
  destruct (calculate_heat_content_rounds ["S_PACIFIC_01"] db_tie_reading)
    as (_ & _ & Htotal & Haverage & _).
  specialize (Haverage Hpos).
  assert (Hpin : forall r,
             rounds_to_two_decimals (Py.float 31.395) r ->
             r = Py.float 31.39).
  { intros r Hr. unfold rounds_to_two_decimals in Hr.
    assert (E : Prim2SF (Py.float 31.395)
                = S754_finite false 8836906893831045 (-48))
      by (vm_compute; reflexivity).
    rewrite E in Hr. destruct Hr as (k & Hk & _ & ->).
    apply Qabs_Qle_condition in Hk. destruct Hk as [Hlo Hhi].
    assert (Hk : k = 3139%Z).
    { unfold Qle in Hlo, Hhi. cbn in Hlo, Hhi. lia. }
    subst k. vm_compute. reflexivity. }
  split; apply Hpin.
  - replace (Py.float 31.395)
      with (float_sum
              (map heat_of (latest_readings ["S_PACIFIC_01"] db_tie_reading)))
      by (vm_compute; reflexivity).
    exact Htotal.
  - replace (Py.float 31.395)
      with (float_sum
              (map heat_of (latest_readings ["S_PACIFIC_01"] db_tie_reading))
            / Py.float
                (inject_Z
                   (Z.of_nat
                      (List.length
                         (map heat_of
                            (latest_readings ["S_PACIFIC_01"]
                               db_tie_reading))))))%float
      by (vm_compute; reflexivity).
    exact Haverage.
Defined.

(** The sum is a sum of doubles, so the order of the ids can show in the
    last digit: the same three sensors give 31.39 in one order and 31.4 in
    the other. *)
Example heat_content_depends_on_order :
  HeatContent.total_heat_content_kj_m2
    (calculate_heat_content ["S_PACIFIC_01"; "S_ATLANTIC_01"; "S_ARCTIC_01"]
       db_three_heats) = Py.float 31.39
  /\ HeatContent.total_heat_content_kj_m2
       (calculate_heat_content ["S_ARCTIC_01"; "S_ATLANTIC_01"; "S_PACIFIC_01"]
          db_three_heats) = Py.float 31.4.
Proof. split; vm_compute; reflexivity. Qed.

(** ** Heat-map glyphs *)

Example heatmap_of_one_reading :
  heatmap_ascii "temperature" db_one_reading
  = String.concat Fmt.newline
      ["    -120.3 -30.1  15.2";
       "78.5     ?     ?     ?";
       "45.2     ?     ?     ?";
       ("35.5     " ++ Py.chr 0x2588 ++ "     ?     ?")%string].
Proof. reflexivity. Qed.

Lemma placeholder_cell_equals_unknown_cell :
  heatmap_cell "ph" (fleet_status db_one_reading) 35.5 (-120.3) = "     ?"
  /\ heatmap_cell "ph" (fleet_status db_one_reading) 45.2 (-30.1) = "     ?"
  /\ ~ unknown_glyph_is_distinct "ph" (fleet_status db_one_reading).
Proof.
  split; [reflexivity|]. split; [reflexivity|].
  intro Hdistinct.
  refine (Hdistinct 35.5 (-120.3) 45.2 (-30.1) _ _ _ eq_refl eq_refl eq_refl
            eq_refl eq_refl)%Q.
Qed.

Lemma heatmap_char_temperature (r : OceanReading.t) :
  heatmap_char "temperature" r
  = if Py.ltb 25 (OceanReading.temperature_c r) then Py.chr 0x2588
    else if Py.ltb 15 (OceanReading.temperature_c r) then Py.chr 0x2589
    else ".".
Proof. reflexivity. Qed.

Lemma heatmap_char_is_not_question_mark (parameter : string)
  (r : OceanReading.t) :
  parameter = "temperature" \/ parameter = "salinity" ->
  Py.rjust 6 (heatmap_char parameter r) <> unknown_cell.
Proof.
  intros [-> | ->]; unfold heatmap_char; simpl;
    repeat match goal with
      | |- context [Py.ltb ?a ?b] => destruct (Py.ltb a b)
      end; vm_compute; discriminate.
Qed.

Lemma heatmap_char_placeholder (parameter : string) (r : OceanReading.t) :
  parameter <> "temperature" -> parameter <> "salinity" ->
  heatmap_char parameter r = "?".
Proof.
  intros Ht Hs. unfold heatmap_char.
  apply String.eqb_neq in Ht, Hs. now rewrite Ht, Hs.
Qed.

(** C9 (amended): in the heat map, with a parameter name other than
    [temperature] and [salinity] every cell whose sensor has a latest
    reading shows the one placeholder glyph [?]; a cell whose sensor has no
    reading shows [?] as well, whatever the parameter, so the two look the
    same there, while for [temperature] and [salinity] every glyph of a
    cell with a reading differs from it.  For [temperature] a value above
    25, a value above 15 and at most 25, and a value of at most 15 show
    three glyphs that differ from one another. *)
Theorem heatmap_glyphs :
  (forall parameter fleet lat lon s r,
      parameter <> "temperature" -> parameter <> "salinity" ->
      sensor_at fleet lat lon = Some s ->
      FleetEntry.last_reading s = Some r ->
      heatmap_cell parameter fleet lat lon = "     ?")
  /\ (forall parameter fleet lat lon s,
         sensor_at fleet lat lon = Some s ->
         FleetEntry.last_reading s = None ->
         heatmap_cell parameter fleet lat lon = "     ?")
  /\ (forall parameter fleet lat lon s r,
         parameter = "temperature" \/ parameter = "salinity" ->
         sensor_at fleet lat lon = Some s ->
         FleetEntry.last_reading s = Some r ->
         heatmap_cell parameter fleet lat lon <> "     ?")
  /\ (forall r,
         let val := OceanReading.temperature_c r in
         ((25 < val)%Q -> heatmap_char "temperature" r = Py.chr 0x2588)
         /\ ((15 < val)%Q -> (val <= 25)%Q ->
             heatmap_char "temperature" r = Py.chr 0x2589)
         /\ ((val <= 15)%Q -> heatmap_char "temperature" r = "."))
  /\ Py.chr 0x2588 <> Py.chr 0x2589
  /\ Py.chr 0x2588 <> "."
  /\ Py.chr 0x2589 <> ".".
Proof.
  split; [|split; [|split; [|split]]].
  - intros parameter fleet lat lon s r Ht Hs Hat Hr.
    unfold heatmap_cell. rewrite Hat, Hr.
    now rewrite (heatmap_char_placeholder parameter r Ht Hs).
  - intros parameter fleet lat lon s Hat Hr.
    unfold heatmap_cell. now rewrite Hat, Hr.
  - intros parameter fleet lat lon s r Hp Hat Hr.
    unfold heatmap_cell. rewrite Hat, Hr.
    now apply heatmap_char_is_not_question_mark.
  - intros r val. rewrite heatmap_char_temperature. fold val.
    repeat split.
    + intro H. apply Py_ltb_true in H. now rewrite H.
    + intros H15 H25. apply Py_ltb_true in H15. apply Py_ltb_false in H25.
      now rewrite H25, H15.
    + intro H15.
      assert (H25 : Py.ltb 25 val = false).
      { apply Py_ltb_false. apply Qle_trans with (1 := H15).
        intro Hc; discriminate Hc. }
      apply Py_ltb_false in H15. now rewrite H25, H15.
  - repeat split; vm_compute; discriminate.
Qed.

Lemma heatmap_glyphs_demo :
  sensor_at (fleet_status db_one_reading) 35.5 (-120.3)
  = Some (FleetEntry.mk "S_PACIFIC_01" "Pacific Buoy" "buoy" 35.5 (-120.3)
            4000 "active"
            (Some (OceanReading.mk "S_PACIFIC_01" 32 35 8 5 0 4000
                     "2024-03-01T12:00:00.000000")))
  /\ heatmap_cell "ph" (fleet_status db_one_reading) 35.5 (-120.3)
     = "     ?"
  /\ heatmap_cell "temperature" (fleet_status db_one_reading) 35.5 (-120.3)
     <> "     ?"
  /\ heatmap_cell "ph" (fleet_status db_one_reading) 45.2 (-30.1)
     = "     ?"
  /\ heatmap_char "temperature"
       (OceanReading.mk "S_PACIFIC_01" 32 35 8 5 0 4000 "") = Py.chr 0x2588
  /\ heatmap_char "temperature"
       (OceanReading.mk "S_PACIFIC_01" 20 35 8 5 0 4000 "") = Py.chr 0x2589
  /\ heatmap_char "temperature"
       (OceanReading.mk "S_PACIFIC_01" 15 35 8 5 0 4000 "") = ".".
Proof.
  destruct heatmap_glyphs as (Hplace & Hunknown & Hknown & Htiers & _).
  split; [reflexivity|]. split; [|split; [|split; [|split; [|split]]]].
  - refine (Hplace "ph" (fleet_status db_one_reading) 35.5%Q (-120.3)%Q
              _ _ _ _ eq_refl eq_refl); discriminate.
  - refine (Hknown "temperature" (fleet_status db_one_reading) 35.5%Q
              (-120.3)%Q _ _ (or_introl eq_refl) eq_refl eq_refl).
  - refine (Hunknown "ph" (fleet_status db_one_reading) 45.2%Q (-30.1)%Q
              _ eq_refl eq_refl).
  - apply (proj1 (Htiers (OceanReading.mk "S_PACIFIC_01" 32 35 8 5 0 4000
                            ""))).
    reflexivity.
  - apply (proj1 (proj2 (Htiers (OceanReading.mk "S_PACIFIC_01" 20 35 8 5 0
                                   4000 "")))).
    + reflexivity.
    + intro Hc; discriminate Hc.
  - apply (proj2 (proj2 (Htiers (OceanReading.mk "S_PACIFIC_01" 15 35 8 5 0
                                   4000 "")))).
    intro Hc; discriminate Hc.
Defined.

(** * Further properties of the module *)

(** ** Start-up *)

(** X1: [_initialize_demo_sensors] writes the three demo sensors into a
    database without sensors and nothing else; a database that has a
    sensor is left as it is, so running it again changes nothing. *)
Theorem initialize_demo_sensors_once (db : Store) :
  _initialize_demo_sensors (_initialize_demo_sensors db)
  = _initialize_demo_sensors db
  /\ (sensors db <> [] -> _initialize_demo_sensors db = db)
  /\ (sensors db = [] ->
      _initialize_demo_sensors db
      = mkStore demo_sensors (readings db) (anomalies db)).
Proof.
  unfold _initialize_demo_sensors.
  destruct db as [ss rs az]. simpl.
  destruct ss as [|s ss]; simpl.
  - split; [reflexivity|]. split; [congruence|reflexivity].
  - split; [reflexivity|]. split; [reflexivity|discriminate].
Qed.

Lemma initialize_demo_sensors_once_demo :
  sensors fresh_db <> []
  /\ _initialize_demo_sensors fresh_db = fresh_db.
Proof.
  assert (H : sensors fresh_db <> []) by discriminate.
  split; [exact H|].
  exact (proj1 (proj2 (initialize_demo_sensors_once fresh_db)) H).
Defined.

(** ** Deploying under an id that is taken *)

Lemma insert_sensor_taken (s : OceanSensor.t) (db : Store) :
  In (OceanSensor.id s) (map OceanSensor.id (sensors db)) ->
  insert_sensor s db
  = (inl (IntegrityError "UNIQUE constraint failed: sensors.id"), db).
Proof.
  intro Hin. unfold insert_sensor.
  destruct (existsb _ (sensors db)) eqn:E; [reflexivity|].
  exfalso. apply in_map_iff in Hin. destruct Hin as (s' & Hid & Hs').
  assert (Ht : existsb
                 (fun s'0 => OceanSensor.id s'0 =? OceanSensor.id s)
                 (sensors db) = true).
  { apply existsb_exists. exists s'. split; [exact Hs'|].
    now apply String.eqb_eq. }
  congruence.
Qed.

Lemma deploy_sensor_taken
  uuid4_hex name type_ lat lon depth_m (db : Store) :
  In type_ SensorTypes.values ->
  In (new_sensor_id uuid4_hex) (map OceanSensor.id (sensors db)) ->
  deploy_sensor uuid4_hex name type_ lat lon depth_m db
  = (inl (IntegrityError "UNIQUE constraint failed: sensors.id"), db).
Proof.
  intros Hgood Htaken. unfold deploy_sensor.
  assert (E : existsb (String.eqb type_) SensorTypes.values = true).
  { apply existsb_exists. exists type_.
    split; [exact Hgood|apply String.eqb_refl]. }
  rewrite E. simpl negb. cbv iota. unfold transaction, bind.
  fold (new_sensor_id uuid4_hex).
  rewrite insert_sensor_taken by exact Htaken. reflexivity.
Qed.

(** X2: [deploy_sensor] with one of the six types but an id that a
    sensor of the table already has raises sqlite's integrity error, and
    the database stays as it was. *)
Theorem deploy_sensor_taken_id
  uuid4_hex name type_ lat lon depth_m (db : Store) :
  In type_ SensorTypes.values ->
  In (new_sensor_id uuid4_hex) (map OceanSensor.id (sensors db)) ->
  deploy_sensor uuid4_hex name type_ lat lon depth_m db
  = (inl (IntegrityError "UNIQUE constraint failed: sensors.id"), db).
Proof.
  exact (deploy_sensor_taken uuid4_hex name type_ lat lon depth_m db).
Qed.

Lemma deploy_sensor_taken_id_demo :
  In "glider" SensorTypes.values
  /\ In (new_sensor_id "0A1B2C3Dffffffffffffffffffffffff")
       (map OceanSensor.id (sensors db_test_buoy))
  /\ deploy_sensor "0A1B2C3Dffffffffffffffffffffffff" "Other" "glider"
       1 2 3 db_test_buoy
     = (inl (IntegrityError "UNIQUE constraint failed: sensors.id"),
        db_test_buoy).
Proof.
  assert (Hgood : In "glider" SensorTypes.values) by (simpl; auto).
  assert (Htaken : In (new_sensor_id "0A1B2C3Dffffffffffffffffffffffff")
                     (map OceanSensor.id (sensors db_test_buoy)))
    by (simpl; auto).
  split; [exact Hgood|]. split; [exact Htaken|].
  exact (deploy_sensor_taken_id "0A1B2C3Dffffffffffffffffffffffff" "Other"
           "glider" 1 2 3 db_test_buoy Hgood Htaken).
Defined.

Lemma deploy_sensor_ok_inv
  uuid4_hex name type_ lat lon depth_m (db db' : Store) sensor :
  deploy_sensor uuid4_hex name type_ lat lon depth_m db = (inr sensor, db') ->
  In type_ SensorTypes.values
  /\ ~ In (new_sensor_id uuid4_hex) (map OceanSensor.id (sensors db))
  /\ sensor = OceanSensor.mk (new_sensor_id uuid4_hex) name type_ lat lon
                depth_m "active" None
  /\ db' = mkStore (sensors db ++ [sensor]) (readings db) (anomalies db).
Proof.
  unfold deploy_sensor.
  destruct (existsb (String.eqb type_) SensorTypes.values) eqn:Etype;
    simpl negb; cbv iota; [|discriminate].
  unfold transaction, bind.
  destruct (insert_sensor _ db) as [[e|u] db1] eqn:E; simpl; [discriminate|].
  intro H. apply insert_sensor_ok_inv in E. destruct E as [Hfresh E].
  injection H as <- <-. split.
  - apply existsb_exists in Etype. destruct Etype as (x & Hx & Ex).
    apply String.eqb_eq in Ex. now subst.
  - split; [exact Hfresh|]. split; [reflexivity|exact E].
Qed.

(** X3: the id depends only on the first eight characters of the UUID
    text, case ignored.  After a successful deployment, a second one whose
    UUID agrees with the first on those characters raises the integrity
    error and leaves the database as the first deployment made it. *)
Theorem deploy_sensor_uuid_prefix_collision
  uuid1 name1 type1 lat1 lon1 depth1
  uuid2 name2 type2 lat2 lon2 depth2 (db db' : Store) sensor :
  deploy_sensor uuid1 name1 type1 lat1 lon1 depth1 db = (inr sensor, db') ->
  Py.upper (Py.take 8 uuid2) = Py.upper (Py.take 8 uuid1) ->
  In type2 SensorTypes.values ->
  deploy_sensor uuid2 name2 type2 lat2 lon2 depth2 db'
  = (inl (IntegrityError "UNIQUE constraint failed: sensors.id"), db').
Proof.
  intros Hfirst Hprefix Hgood.
  apply deploy_sensor_taken; [exact Hgood|].
  destruct (deploy_sensor_ok_inv _ _ _ _ _ _ _ _ _ Hfirst)
    as (_ & _ & Hsensor & Hdb).
  rewrite Hdb. simpl. rewrite map_app, in_app_iff. right. left.
  rewrite Hsensor. simpl. unfold new_sensor_id. now rewrite Hprefix.
Qed.

Lemma deploy_sensor_uuid_prefix_collision_demo :
  exists sensor,
    deploy_sensor "0a1b2c3d4e5f60718293a4b5c6d7e8f9" "Test Buoy" "buoy"
      10 20 100 fresh_db = (inr sensor, db_test_buoy)
    /\ deploy_sensor "0A1B2C3Dffffffffffffffffffffffff" "Other" "glider"
         1 2 3 db_test_buoy
       = (inl (IntegrityError "UNIQUE constraint failed: sensors.id"),
          db_test_buoy).
Proof.
  eexists. split; [reflexivity|].
  refine (deploy_sensor_uuid_prefix_collision
            "0a1b2c3d4e5f60718293a4b5c6d7e8f9" "Test Buoy" "buoy" 10 20 100
            "0A1B2C3Dffffffffffffffffffffffff" "Other" "glider" 1 2 3
            fresh_db db_test_buoy _ eq_refl eq_refl _).
  simpl; auto.
Defined.

(** ** What an ingest changes and what it leaves alone *)

Lemma ingest_reading_outcome
  clk sensor_id temp salinity ph o2 current depth (db : Store) :
  (~ In sensor_id (map OceanSensor.id (sensors db))
   /\ ingest_reading clk sensor_id temp salinity ph o2 current depth db
      = (inl (ValueError ("Sensor " ++ sensor_id ++ " not found")%string),
         db))
  \/ (exists row,
         In row (sensors db) /\ OceanSensor.id row = sensor_id
         /\ ingest_reading clk sensor_id temp salinity ph o2 current depth db
            = (inr (ingested clk sensor_id temp salinity ph o2 current depth
                      row),
               mkStore
                 (map (fun s => if OceanSensor.id s =? sensor_id
                                then touched (now clk) s else s)
                    (sensors db))
                 (readings db
                    ++ [ingested clk sensor_id temp salinity ph o2 current
                          depth row])
                 (anomalies db ++ triggered sensor_id temp ph o2 (now clk)))).
Proof.
  destruct (in_dec string_dec sensor_id (map OceanSensor.id (sensors db)))
    as [Hin|Hout].
  - right. destruct (select_sensor_present _ _ Hin) as (row & Hsel & Hid & Hr).
    exists row. split; [exact Hr|]. split; [exact Hid|].
    exact (ingest_reading_found clk sensor_id temp salinity ph o2 current
             depth db row Hsel).
  - left. split; [exact Hout|].
    unfold ingest_reading, transaction, bind.
    rewrite (select_sensor_absent _ _ Hout). reflexivity.
Qed.

Lemma find_after_touch (ts sensor_id sid' : string) (l : list OceanSensor.t) :
  find (fun s => OceanSensor.id s =? sid')
    (map (fun s => if OceanSensor.id s =? sensor_id then touched ts s else s)
       l)
  = option_map (fun s => if sid' =? sensor_id then touched ts s else s)
      (find (fun s => OceanSensor.id s =? sid') l).
Proof.
  induction l as [|s l IH]; simpl; [reflexivity|].
  destruct (String.eqb_spec (OceanSensor.id s) sensor_id) as [E|E]; simpl;
    destruct (String.eqb_spec (OceanSensor.id s) sid') as [E'|E']; simpl;
    try exact IH.
  - subst sid'. rewrite E, String.eqb_refl. reflexivity.
  - subst sid'. apply String.eqb_neq in E. now rewrite E.
Qed.

(** X4: after a successful ingest, looking the sensor up gives its row
    with the last-reading timestamp set to the ingest's timestamp and
    every other column as before; looking any other id up gives what it
    gave before. *)
Theorem ingest_sets_last_reading_ts
  clk sensor_id temp salinity ph o2 current depth (db : Store) :
  In sensor_id (map OceanSensor.id (sensors db)) ->
  let db' :=
    snd (ingest_reading clk sensor_id temp salinity ph o2 current depth db) in
  (exists row,
      fst (select_sensor sensor_id db) = Some row
      /\ fst (select_sensor sensor_id db') = Some (touched (now clk) row)
      /\ OceanSensor.last_reading_ts (touched (now clk) row) = Some (now clk)
      /\ static_columns (touched (now clk) row) = static_columns row)
  /\ (forall other, other <> sensor_id ->
        fst (select_sensor other db') = fst (select_sensor other db)).
Proof.
  intros Hin db'.
  assert (Hsensors :
            sensors db'
            = map (fun s => if OceanSensor.id s =? sensor_id
                            then touched (now clk) s else s) (sensors db)).
  { unfold db'.
    destruct (ingest_reading_outcome clk sensor_id temp salinity ph o2
                current depth db) as [[Hout _]|(row & _ & _ & ->)];
      [contradiction|reflexivity]. }
  split.
  - destruct (select_sensor_present _ _ Hin) as (row & Hsel & _ & _).
    exists row. rewrite Hsel. split; [reflexivity|].
    split; [|split; reflexivity].
    unfold select_sensor in *. simpl. rewrite Hsensors, find_after_touch.
    injection Hsel as ->. simpl. now rewrite String.eqb_refl.
  - intros other Hother. unfold select_sensor. simpl.
    rewrite Hsensors, find_after_touch.
    apply String.eqb_neq in Hother. rewrite Hother.
    now destruct (find _ (sensors db)).
Qed.

Lemma ingest_sets_last_reading_ts_demo :
  In "S_PACIFIC_01" (map OceanSensor.id (sensors fresh_db))
  /\ "S_ARCTIC_01" <> "S_PACIFIC_01"
  /\ fst (select_sensor "S_PACIFIC_01" db_one_reading)
     = Some (OceanSensor.mk "S_PACIFIC_01" "Pacific Buoy" "buoy" 35.5
               (-120.3) 4000 "active" (Some "2024-03-01T12:00:00.000000"))
  /\ fst (select_sensor "S_ARCTIC_01" db_one_reading)
     = fst (select_sensor "S_ARCTIC_01" fresh_db).
Proof.
  assert (Hin : In "S_PACIFIC_01" (map OceanSensor.id (sensors fresh_db)))
    by (simpl; auto).
  assert (Hother : "S_ARCTIC_01" <> "S_PACIFIC_01") by discriminate.
  split; [exact Hin|]. split; [exact Hother|].
  destruct (ingest_sets_last_reading_ts
              (clock_at "2024-03-01T12:00:00.000000") "S_PACIFIC_01"
              32 35 8 5 0 None fresh_db Hin) as [_ Hrest].
  split; [reflexivity|].
  exact (Hrest "S_ARCTIC_01" Hother).
Defined.

(** X5: an ingest for one sensor, whether it succeeds or raises, changes
    nothing that the queries return for any other sensor: its stored
    readings, its latest reading and its history are as before. *)
Theorem ingest_leaves_other_sensors
  clk sensor_id temp salinity ph o2 current depth (db : Store)
  (other : string) :
  other <> sensor_id ->
  let db' :=
    snd (ingest_reading clk sensor_id temp salinity ph o2 current depth db) in
  readings_of other db' = readings_of other db
  /\ get_latest other db' = get_latest other db
  /\ (forall clk' hours,
         get_history clk' other hours db' = get_history clk' other hours db).
Proof.
  intros Hother db'.
  destruct (ingest_reading_outcome clk sensor_id temp salinity ph o2 current
              depth db) as [[_ Hrun]|(row & _ & _ & Hrun)];
    unfold db'; rewrite Hrun; simpl.
  - split; [|split]; intros; reflexivity.
  - apply not_eq_sym in Hother. apply String.eqb_neq in Hother.
    unfold readings_of, get_latest, get_history.
    split; [|split]; intros; simpl; rewrite filter_app; simpl;
      rewrite Hother; simpl; rewrite app_nil_r; reflexivity.
Qed.

Lemma ingest_leaves_other_sensors_demo :
  "S_ARCTIC_01" <> "S_PACIFIC_01"
  /\ get_latest "S_ARCTIC_01" db_hot_acid_hypoxic
     = get_latest "S_ARCTIC_01" fresh_db.
Proof.
  assert (Hother : "S_ARCTIC_01" <> "S_PACIFIC_01") by discriminate.
  split; [exact Hother|].
  exact (proj1 (proj2 (ingest_leaves_other_sensors
                         (clock_at "2024-03-01T12:00:00") "S_PACIFIC_01"
                         31 35 7 3 0 None fresh_db "S_ARCTIC_01" Hother))).
Defined.

Lemma triggered_length sensor_id temp ph o2 ts :
  (List.length (triggered sensor_id temp ph o2 ts) <= 3)%nat.
Proof. rules_by_cases. Qed.

(** X6: the two writers only append.  An ingest, whether it succeeds or
    raises, keeps every stored reading and anomaly row in place, adds at
    most one reading and at most three anomalies after them, and keeps
    every sensor's id, name, type, position, depth and status; a
    deployment keeps every row in place and adds at most one sensor. *)
Theorem writers_only_append (db : Store) :
  (forall clk sensor_id temp salinity ph o2 current depth,
      let db' :=
        snd (ingest_reading clk sensor_id temp salinity ph o2 current depth
               db) in
      exists new_readings new_anomalies,
        readings db' = readings db ++ new_readings
        /\ anomalies db' = anomalies db ++ new_anomalies
        /\ (List.length new_readings <= 1)%nat
        /\ (List.length new_anomalies <= 3)%nat
        /\ map static_columns (sensors db') = map static_columns (sensors db))
  /\ (forall uuid4_hex name type_ lat lon depth_m,
         let db' :=
           snd (deploy_sensor uuid4_hex name type_ lat lon depth_m db) in
         exists new_sensors,
           sensors db' = sensors db ++ new_sensors
           /\ (List.length new_sensors <= 1)%nat
           /\ readings db' = readings db
           /\ anomalies db' = anomalies db).
Proof.
  split.
  - intros clk sensor_id temp salinity ph o2 current depth db'.
    destruct (ingest_reading_outcome clk sensor_id temp salinity ph o2
                current depth db) as [[_ Hrun]|(row & _ & _ & Hrun)];
      unfold db'; rewrite Hrun; simpl.
    + exists [], []. rewrite !app_nil_r. repeat split; simpl; lia.
    + eexists. eexists. split; [reflexivity|]. split; [reflexivity|].
      split; [simpl; lia|]. split; [apply triggered_length|].
      rewrite map_map. apply map_ext. intro s.
      now destruct (OceanSensor.id s =? sensor_id).
  - intros uuid4_hex name type_ lat lon depth_m db'.
    destruct (deploy_sensor uuid4_hex name type_ lat lon depth_m db)
      as [[e|sensor] db1] eqn:Hrun.
    + exists []. unfold db'. simpl.
      assert (db1 = db).
      { revert Hrun. unfold deploy_sensor.
        destruct (negb _); [congruence|].
        unfold transaction, bind.
        destruct (insert_sensor _ db) as [[e'|u] db2]; simpl; congruence. }
      subst db1. rewrite app_nil_r. repeat split. simpl. lia.
    + destruct (deploy_sensor_ok_inv _ _ _ _ _ _ _ _ _ Hrun)
        as (_ & _ & _ & ->).
      exists [sensor]. unfold db'. simpl. repeat split. lia.
Qed.

(** ** The latest reading and the history *)

Lemma string_leb_refl (a : string) : (a <=? a)%string = true.
Proof. apply string_leb_cases. now left. Qed.

Lemma string_ltb_leb_trans (a b c : string) :
  (a <? b)%string = true -> (b <=? c)%string = true ->
  (a <? c)%string = true.
Proof.
  rewrite !string_ltb_lt, string_leb_cases.
  intros Hab [-> | Hbc]; [exact Hab|].
  eapply String_as_OT.lt_trans; eassumption.
Qed.

Lemma get_latest_lookup (sensor_id : string) (db : Store) :
  (get_latest sensor_id db = None <-> readings_of sensor_id db = [])
  /\ (forall r,
         get_latest sensor_id db = Some r ->
         In r (readings db)
         /\ OceanReading.sensor_id r = sensor_id
         /\ forall r', In r' (readings db) ->
                       OceanReading.sensor_id r' = sensor_id ->
                       (OceanReading.timestamp r' <=? OceanReading.timestamp r)%string
                       = true).
Proof.
  unfold get_latest. fold (readings_of sensor_id db).
  pose proof (order_by_timestamp_desc_perm (readings_of sensor_id db))
    as Hperm.
  pose proof (order_by_timestamp_desc_sorted (readings_of sensor_id db))
    as Hsorted.
  destruct (order_by_timestamp_desc (readings_of sensor_id db))
    as [|x sorted] eqn:E; simpl.
  - apply Permutation_nil in Hperm. rewrite Hperm.
    split; [split; reflexivity|discriminate].
  - split.
    + split; [discriminate|]. intro Hnil. rewrite Hnil in Hperm.
      apply Permutation_sym, Permutation_nil in Hperm. discriminate.
    + intros r Hr. injection Hr as <-.
      assert (Hx : In x (readings_of sensor_id db))
        by (apply (Permutation_in _ Hperm); now left).
      apply filter_In in Hx. destruct Hx as [Hx Hsid].
      apply String.eqb_eq in Hsid. split; [exact Hx|]. split; [exact Hsid|].
      intros r' Hr' Hsid'.
      assert (Hin : In r' (x :: sorted)).
      { apply (Permutation_in _ (Permutation_sym Hperm)).
        apply filter_In. split; [exact Hr'|]. now apply String.eqb_eq. }
      destruct Hin as [<-|Hin]; [apply string_leb_refl|].
      apply StronglySorted_inv in Hsorted. destruct Hsorted as [_ Hall].
      rewrite Forall_forall in Hall. exact (Hall r' Hin).
Qed.

(** X7: [get_latest] returns nothing exactly when no reading is stored
    for the sensor; otherwise it returns a stored reading of that sensor
    whose timestamp no other reading of the sensor exceeds. *)
Theorem get_latest_is_most_recent (sensor_id : string) (db : Store) :
  (get_latest sensor_id db = None <-> readings_of sensor_id db = [])
  /\ (forall r,
         get_latest sensor_id db = Some r ->
         In r (readings db)
         /\ OceanReading.sensor_id r = sensor_id
         /\ forall r', In r' (readings db) ->
                       OceanReading.sensor_id r' = sensor_id ->
                       (OceanReading.timestamp r' <=? OceanReading.timestamp r)%string
                       = true).
Proof.
  exact (get_latest_lookup sensor_id db).
Qed.

Lemma get_latest_is_most_recent_demo :
  get_latest "S_PACIFIC_01" db_clock_stepped_back
  = Some (OceanReading.mk "S_PACIFIC_01" 32 35 8 5 0 4000
            "2024-03-01T12:00:00.000000")
  /\ forall r', In r' (readings db_clock_stepped_back) ->
                OceanReading.sensor_id r' = "S_PACIFIC_01" ->
                (OceanReading.timestamp r' <=? "2024-03-01T12:00:00.000000")%string
                = true.
Proof.
  assert (H : get_latest "S_PACIFIC_01" db_clock_stepped_back
              = Some (OceanReading.mk "S_PACIFIC_01" 32 35 8 5 0 4000
                        "2024-03-01T12:00:00.000000")) by reflexivity.
  split; [exact H|].
  exact (proj2 (proj2 (proj2 (get_latest_is_most_recent "S_PACIFIC_01"
                                db_clock_stepped_back) _ H))).
Defined.

Lemma insert_desc_front (r : OceanReading.t) (l : list OceanReading.t) :
  (forall x, In x l ->
     (OceanReading.timestamp x <=? OceanReading.timestamp r)%string = true) ->
  insert_desc r l = r :: l.
Proof.
  destruct l as [|x l]; intro H; simpl; [reflexivity|].
  rewrite (string_leb_not_ltb _ _ (H x (or_introl eq_refl))). reflexivity.
Qed.

Lemma filter_insert_desc (p : OceanReading.t -> bool) (r : OceanReading.t)
  (l : list OceanReading.t) :
  StronglySorted not_later l ->
  filter p (insert_desc r l)
  = if p r then insert_desc r (filter p l) else filter p l.
Proof.
  induction 1 as [|x l Hsorted IH Hall]; simpl.
  - now destruct (p r).
  - destruct (OceanReading.timestamp r <? OceanReading.timestamp x)%string
      eqn:E; simpl.
    + rewrite IH. destruct (p x), (p r); simpl; rewrite ?E; reflexivity.
    + destruct (p r) eqn:Er, (p x) eqn:Ex; simpl; rewrite ?Ex, ?E;
        try reflexivity.
      symmetry. apply insert_desc_front. intros y Hy.
      apply filter_In in Hy. destruct Hy as [Hy _].
      rewrite Forall_forall in Hall.
      eapply string_leb_trans; [exact (Hall y Hy)|].
      now apply string_ltb_false_leb.
Qed.

(** Ordering commutes with any WHERE clause: equal timestamps keep their
    rowid order on both sides. *)
Lemma order_by_timestamp_desc_filter (p : OceanReading.t -> bool)
  (l : list OceanReading.t) :
  order_by_timestamp_desc (filter p l)
  = filter p (order_by_timestamp_desc l).
Proof.
  induction l as [|r l IH]; simpl; [reflexivity|].
  rewrite filter_insert_desc by apply order_by_timestamp_desc_sorted.
  destruct (p r); simpl; now rewrite IH.
Qed.

Lemma filter_andb {A} (p q : A -> bool) (l : list A) :
  filter (fun x => p x && q x) l = filter q (filter p l).
Proof.
  induction l as [|x l IH]; simpl; [reflexivity|].
  destruct (p x); simpl; [destruct (q x)|]; now rewrite IH.
Qed.

(** The history is the cut of the sensor's ordered readings. *)
Lemma get_history_as_cut (clk : Clock) (sensor_id : string) (hours : Z)
  (db : Store) :
  get_history clk sensor_id hours db
  = filter (fun r => (hours_ago clk hours <? OceanReading.timestamp r)%string)
      (order_by_timestamp_desc (readings_of sensor_id db)).
Proof.
  unfold get_history, readings_of.
  rewrite (filter_andb
             (fun r => OceanReading.sensor_id r =? sensor_id)
             (fun r => (hours_ago clk hours <? OceanReading.timestamp r)%string)).
  apply order_by_timestamp_desc_filter.
Qed.

(** X8: the history and the latest reading agree.  When the history of a
    sensor is not empty, its first entry is the reading [get_latest]
    returns; and when the latest reading is later than the cutoff, the
    history starts with it.  So the history is empty exactly when the
    sensor has no reading later than the cutoff. *)
Theorem history_starts_with_latest (clk : Clock) (sensor_id : string)
  (hours : Z) (db : Store) :
  (forall r rest,
      get_history clk sensor_id hours db = r :: rest ->
      get_latest sensor_id db = Some r)
  /\ (forall r,
         get_latest sensor_id db = Some r ->
         (hours_ago clk hours <? OceanReading.timestamp r)%string = true ->
         exists rest, get_history clk sensor_id hours db = r :: rest)
  /\ (get_history clk sensor_id hours db = [] <->
      forall r, get_latest sensor_id db = Some r ->
                (hours_ago clk hours <? OceanReading.timestamp r)%string
                = false).
Proof.
  rewrite get_history_as_cut. unfold get_latest.
  fold (readings_of sensor_id db).
  pose proof (order_by_timestamp_desc_sorted (readings_of sensor_id db))
    as Hsorted.
  destruct (order_by_timestamp_desc (readings_of sensor_id db))
    as [|x sorted]; simpl.
  - split; [discriminate|]. split; [discriminate|].
    split; [discriminate|reflexivity].
  - apply StronglySorted_inv in Hsorted. destruct Hsorted as [_ Hall].
    rewrite Forall_forall in Hall.
    destruct (hours_ago clk hours <? OceanReading.timestamp x)%string eqn:E.
    + split; [intros r rest H; injection H as <- _; reflexivity|].
      split.
      * intros r H _. injection H as <-. eexists. reflexivity.
      * split; [discriminate|]. intro H. specialize (H x eq_refl).
        congruence.
    + assert (Hnone :
                filter (fun r =>
                          (hours_ago clk hours <? OceanReading.timestamp r)%string)
                  sorted = []).
      { induction sorted as [|y l IH]; simpl; [reflexivity|].
        destruct (hours_ago clk hours <? OceanReading.timestamp y)%string
          eqn:Ey.
        - exfalso.
          rewrite (string_ltb_leb_trans _ _ _ Ey (Hall y (or_introl eq_refl)))
            in E. discriminate.
        - apply IH. intros z Hz. apply Hall. now right. }
      rewrite Hnone. split; [discriminate|]. split.
      * intros r H Hr. injection H as <-. congruence.
      * split; [|reflexivity]. intros _ r H. now injection H as <-.
Qed.

Lemma history_starts_with_latest_demo :
  get_history clock_noon "S_PACIFIC_01" 24 db_three_readings
  = [OceanReading.mk "S_PACIFIC_01" 21 35 8 6 0 4000
       "2024-03-02T09:00:00.000000"]
  /\ get_latest "S_PACIFIC_01" db_three_readings
     = Some (OceanReading.mk "S_PACIFIC_01" 21 35 8 6 0 4000
               "2024-03-02T09:00:00.000000").
Proof.
  assert (H : get_history clock_noon "S_PACIFIC_01" 24 db_three_readings
              = [OceanReading.mk "S_PACIFIC_01" 21 35 8 6 0 4000
                   "2024-03-02T09:00:00.000000"]) by reflexivity.
  split; [exact H|].
  exact (proj1 (history_starts_with_latest clock_noon "S_PACIFIC_01" 24
                  db_three_readings) _ _ H).
Defined.

(** ** Fleet status *)

(** X9: [fleet_status] lists the sensors of the table one by one and in
    table order, each with its own columns; the reading nested in an entry
    is a stored reading of that very sensor, the one [get_latest] returns,
    and an entry has no nested reading exactly when no reading is stored
    for its sensor. *)
Theorem fleet_status_entries (db : Store) :
  map (fun e => (FleetEntry.id e, FleetEntry.name e, FleetEntry.type e,
                 FleetEntry.lat e, FleetEntry.lon e, FleetEntry.depth_m e,
                 FleetEntry.status e)) (fleet_status db)
  = map static_columns (sensors db)
  /\ (forall e,
         In e (fleet_status db) ->
         FleetEntry.last_reading e = get_latest (FleetEntry.id e) db
         /\ (FleetEntry.last_reading e = None
             <-> readings_of (FleetEntry.id e) db = [])
         /\ (forall r, FleetEntry.last_reading e = Some r ->
                       In r (readings db)
                       /\ OceanReading.sensor_id r = FleetEntry.id e)).
Proof.
  split.
  - unfold fleet_status. rewrite map_map. reflexivity.
  - intros e He. unfold fleet_status in He. apply in_map_iff in He.
    destruct He as (s & <- & _). simpl.
    pose proof (get_latest_lookup (OceanSensor.id s) db) as [Hnone Hsome].
    split; [reflexivity|]. split; [exact Hnone|].
    intros r Hr. destruct (Hsome r Hr) as (Hin & Hsid & _). now split.
Qed.

Lemma fleet_status_entries_demo :
  let e := FleetEntry.mk "S_PACIFIC_01" "Pacific Buoy" "buoy" 35.5 (-120.3)
             4000 "active"
             (Some (OceanReading.mk "S_PACIFIC_01" 32 35 8 5 0 4000
                      "2024-03-01T12:00:00.000000")) in
  In e (fleet_status db_one_reading)
  /\ In (OceanReading.mk "S_PACIFIC_01" 32 35 8 5 0 4000
           "2024-03-01T12:00:00.000000") (readings db_one_reading).
Proof.
  intro e.
  assert (He : In e (fleet_status db_one_reading)) by (left; reflexivity).
  split; [exact He|].
  destruct (proj2 (fleet_status_entries db_one_reading) e He)
    as (_ & _ & Hnested).
  exact (proj1 (Hnested _ eq_refl)).
Defined.

(** ** Recent anomalies *)

Lemma insert_anomaly_desc_perm (a : Anomaly.t) (l : list Anomaly.t) :
  Permutation (insert_anomaly_desc a l) (a :: l).
Proof.
  induction l as [|a' l IH]; simpl; [reflexivity|].
  destruct (Anomaly.timestamp a <? Anomaly.timestamp a')%string.
  - rewrite IH. apply perm_swap.
  - reflexivity.
Qed.

Lemma order_anomalies_desc_perm (l : list Anomaly.t) :
  Permutation (order_anomalies_desc l) l.
Proof.
  induction l as [|a l IH]; simpl; [constructor|].
  rewrite insert_anomaly_desc_perm. now constructor.
Qed.

Lemma insert_anomaly_desc_sorted (a : Anomaly.t) (l : list Anomaly.t) :
  Sorted anomaly_not_later l -> Sorted anomaly_not_later (insert_anomaly_desc a l).
Proof.
  induction 1 as [|a' l Hsorted IH Hhd]; simpl.
  - repeat constructor.
  - destruct (Anomaly.timestamp a <? Anomaly.timestamp a')%string eqn:E.
    + constructor; [exact IH|].
      destruct Hhd as [|b l Hb]; simpl.
      * constructor. unfold anomaly_not_later. auto with text_order.
      * destruct (Anomaly.timestamp a <? Anomaly.timestamp b)%string;
          constructor; unfold anomaly_not_later; auto with text_order.
    + constructor; [now constructor|].
      constructor. unfold anomaly_not_later. auto with text_order.
Qed.

Lemma order_anomalies_desc_sorted (l : list Anomaly.t) :
  StronglySorted anomaly_not_later (order_anomalies_desc l).
Proof.
  apply Sorted_StronglySorted.
  - intros a b c Hab Hbc. unfold anomaly_not_later in *.
    eapply string_leb_trans; eassumption.
  - induction l as [|a l IH]; simpl; [constructor|].
    now apply insert_anomaly_desc_sorted.
Qed.

Lemma detect_anomalies_perm (clk : Clock) (db : Store) :
  Permutation (detect_anomalies clk db)
    (filter (fun a => (hours_ago clk 24 <? Anomaly.timestamp a)%string)
       (anomalies db)).
Proof. apply order_anomalies_desc_perm. Qed.

Lemma detect_anomalies_In (clk : Clock) (db : Store) (a : Anomaly.t) :
  In a (detect_anomalies clk db)
  <-> In a (anomalies db)
      /\ (hours_ago clk 24 <? Anomaly.timestamp a)%string = true.
Proof.
  rewrite <- (filter_In
                (fun a => (hours_ago clk 24 <? Anomaly.timestamp a)%string)).
  split; apply Permutation_in.
  - apply detect_anomalies_perm.
  - apply Permutation_sym, detect_anomalies_perm.
Qed.

(** X10: [detect_anomalies] returns exactly the stored anomaly rows whose
    timestamp is strictly greater than the clock's reading minus 24
    hours, each as often as it is stored, ordered by timestamp with the
    most recent first. *)
Theorem detect_anomalies_last_day (clk : Clock) (db : Store) :
  (forall a,
      In a (detect_anomalies clk db)
      <-> In a (anomalies db)
          /\ (hours_ago clk 24 <? Anomaly.timestamp a)%string = true)
  /\ Permutation (detect_anomalies clk db)
       (filter (fun a => (hours_ago clk 24 <? Anomaly.timestamp a)%string)
          (anomalies db))
  /\ StronglySorted anomaly_not_later (detect_anomalies clk db).
Proof.
  split; [intro a; apply detect_anomalies_In|].
  split; [apply detect_anomalies_perm|apply order_anomalies_desc_sorted].
Qed.

(** X11: every anomaly row an ingest has just written is reported by
    [detect_anomalies] on the resulting database, whenever the clock of
    the report puts its 24 hour cutoff before the ingest's timestamp; in
    particular a reading that breaches a rule makes the report
    non-empty. *)
Theorem detect_anomalies_after_ingest
  clk sensor_id temp salinity ph o2 current depth (db : Store)
  (clk' : Clock) :
  In sensor_id (map OceanSensor.id (sensors db)) ->
  (hours_ago clk' 24 <? now clk)%string = true ->
  let db' :=
    snd (ingest_reading clk sensor_id temp salinity ph o2 current depth db) in
  (forall a, In a (produced_anomalies db db') ->
             In a (detect_anomalies clk' db'))
  /\ ((30 < temp)%Q \/ (ph < 7.8)%Q \/ (o2 < 4)%Q ->
      detect_anomalies clk' db' <> []).
Proof.
  intros Hin Hcut db'.
  destruct (ingest_reading_produces clk sensor_id temp salinity ph o2 current
              depth db Hin) as (row & db1 & _ & _ & Hrun & _ & Hanom & Hprod).
  assert (Hdb : db' = db1) by (unfold db'; now rewrite Hrun).
  rewrite Hdb, Hprod.
  assert (Hrep : forall a, In a (triggered sensor_id temp ph o2 (now clk)) ->
                           In a (detect_anomalies clk' db1)).
  { intros a Ha. apply detect_anomalies_In. split.
    - rewrite Hanom. apply in_or_app. now right.
    - assert (Hts : Anomaly.timestamp a = now clk).
      { revert Ha. unfold triggered, rule, high_temperature,
          ocean_acidification, hypoxia.
        destruct (Py.ltb 30 temp), (Py.ltb ph 7.8), (Py.ltb o2 4); simpl;
          intuition (subst; reflexivity). }
      now rewrite Hts. }
  split; [exact Hrep|].
  intros Hbreach Hempty.
  assert (Hsome : exists a, In a (triggered sensor_id temp ph o2 (now clk))).
  { unfold triggered, rule.
    destruct Hbreach as [H|[H|H]]; apply Py_ltb_true in H; rewrite H.
    - eexists. left. reflexivity.
    - eexists. apply in_or_app. right. left. reflexivity.
    - eexists. apply in_or_app. right. apply in_or_app. right. left.
      reflexivity. }
  destruct Hsome as (a & Ha). apply Hrep in Ha. rewrite Hempty in Ha.
  exact Ha.
Qed.

Lemma detect_anomalies_after_ingest_demo :
  In "S_ARCTIC_01" (map OceanSensor.id (sensors db_hot_acid_hypoxic))
  /\ (hours_ago clock_report 24 <? now (clock_at "2024-03-02T10:00:00"))%string
     = true
  /\ (30 < 31.456)%Q
  /\ detect_anomalies clock_report db_two_alerts <> [].
Proof.
  assert (Hin : In "S_ARCTIC_01"
                  (map OceanSensor.id (sensors db_hot_acid_hypoxic)))
    by (simpl; auto).
  assert (Hcut : (hours_ago clock_report 24
                  <? now (clock_at "2024-03-02T10:00:00"))%string = true)
    by reflexivity.
  assert (Hhot : (30 < 31.456)%Q) by reflexivity.
  split; [exact Hin|]. split; [exact Hcut|]. split; [exact Hhot|].
  exact (proj2 (detect_anomalies_after_ingest
                  (clock_at "2024-03-02T10:00:00") "S_ARCTIC_01"
                  31.456 35 7.123 3 0 None db_hot_acid_hypoxic clock_report
                  Hin Hcut) (or_introl Hhot)).
Defined.

Lemma detect_anomalies_last_day_demo :
  detect_anomalies clock_report db_two_alerts
  = [high_temperature "S_ARCTIC_01" 31.456 "2024-03-02T10:00:00";
     ocean_acidification "S_ARCTIC_01" 7.123 "2024-03-02T10:00:00";
     hypoxia "S_ARCTIC_01" 3 "2024-03-02T10:00:00"]
  /\ ~ In (hypoxia "S_PACIFIC_01" 3 "2024-03-01T12:00:00")
         (detect_anomalies clock_report db_two_alerts).
Proof.
  split; [reflexivity|].
  intro H.
  apply (proj1 (detect_anomalies_last_day clock_report db_two_alerts)) in H.
  destruct H as [_ H]. discriminate H.
Defined.

(** ** The alert summary *)

Lemma string_app_assoc (a b c : string) :
  ((a ++ b) ++ c = a ++ (b ++ c))%string.
Proof. induction a as [|x a IH]; simpl; [reflexivity|now rewrite IH]. Qed.

Lemma string_app_nil_r (a : string) : (a ++ "" = a)%string.
Proof. induction a as [|x a IH]; simpl; [reflexivity|now rewrite IH]. Qed.

Lemma concat_empty_sep_cons (x : string) (xs : list string) :
  String.concat "" (x :: xs) = (x ++ String.concat "" xs)%string.
Proof.
  destruct xs as [|y ys]; simpl; [now rewrite string_app_nil_r|reflexivity].
Qed.

Lemma summary_lines_fold (l : list Anomaly.t) (summary : string) :
  fold_left (fun summary anom => (summary ++ Summary.line anom)%string)
    l summary
  = (summary ++ String.concat "" (map Summary.line l))%string.
Proof.
  revert summary. induction l as [|a l IH]; intro summary.
  - simpl. now rewrite string_app_nil_r.
  - cbn [fold_left map]. rewrite IH, concat_empty_sep_cons.
    apply string_app_assoc.
Qed.

Lemma get_setdefault_append (d : Summary.groups) (k sev : string)
  (a : Anomaly.t) :
  Summary.get (Summary.setdefault_append d k a) sev
  = if k =? sev
    then Some (match Summary.get d sev with
               | Some v => v ++ [a]
               | None => [a]
               end)
    else Summary.get d sev.
Proof.
  induction d as [|[k' v] d IH]; simpl.
  - now destruct (k =? sev).
  - destruct (String.eqb_spec k' k) as [E|E]; simpl.
    + subst k'. now destruct (k =? sev).
    + destruct (String.eqb_spec k' sev) as [E'|E']; simpl.
      * subst sev. apply not_eq_sym in E. apply String.eqb_neq in E.
        now rewrite E.
      * exact IH.
Qed.

(** Grouping: [by_severity[sev]] is the list of the anomalies of that
    severity, in their order, and [sev] is a key exactly when there is
    one. *)
Lemma get_group_by_severity (anomalies : list Anomaly.t) (sev : string) :
  Summary.get (Summary.group_by_severity anomalies) sev
  = match filter (has_severity sev) anomalies with
    | [] => None
    | group => Some group
    end.
Proof.
  unfold Summary.group_by_severity.
  assert (H : forall l d,
             Summary.get
               (fold_left
                  (fun d anom =>
                     Summary.setdefault_append d (Anomaly.severity anom) anom)
                  l d) sev
             = match Summary.get d sev, filter (has_severity sev) l with
               | Some v, f => Some (v ++ f)
               | None, [] => None
               | None, f => Some f
               end).
  { induction l as [|a l IH]; intro d; simpl.
    - destruct (Summary.get d sev); [now rewrite app_nil_r|reflexivity].
    - rewrite IH, get_setdefault_append.
      change (has_severity sev a) with (Anomaly.severity a =? sev).
      destruct (Anomaly.severity a =? sev).
      + destruct (Summary.get d sev) as [v|].
        * now rewrite <- app_assoc.
        * reflexivity.
      + reflexivity. }
  apply (H anomalies []).
Qed.

Lemma alert_summary_text (clk : Clock) (db : Store) :
  alert_summary clk db
  = match detect_anomalies clk db with
    | [] => (Py.chr 0x2713 ++ " No active anomalies")%string
    | recent =>
        (Py.chr 0x26A0 ++ " "
         ++ Fmt.digits (Z.of_nat (List.length recent))
         ++ " anomalies detected:" ++ Fmt.newline
         ++ summary_section "critical" recent
         ++ summary_section "warning" recent
         ++ summary_section "info" recent)%string
    end.
Proof.
  unfold alert_summary.
  destruct (detect_anomalies clk db) as [|a l]; [reflexivity|].
  set (recent := a :: l).
  set (header := (Py.chr 0x26A0 ++ " "
                  ++ Fmt.digits (Z.of_nat (List.length recent))
                  ++ " anomalies detected:" ++ Fmt.newline)%string).
  assert (Hstep : forall summary sev,
             match Summary.get (Summary.group_by_severity recent) sev with
             | Some group =>
                 fold_left
                   (fun summary anom => (summary ++ Summary.line anom)%string)
                   (firstn 3 group) (summary ++ Summary.heading sev)%string
             | None => summary
             end
             = (summary ++ summary_section sev recent)%string).
  { intros summary sev. rewrite get_group_by_severity.
    unfold summary_section.
    destruct (filter (has_severity sev) recent) as [|g gs].
    - now rewrite string_app_nil_r.
    - rewrite summary_lines_fold. apply string_app_assoc. }
  cbn [fold_left]. rewrite !Hstep.
  rewrite !string_app_assoc. unfold header.
  rewrite !string_app_assoc. reflexivity.
Qed.

(** X12: the text of [alert_summary].  Without recent anomalies it is
    the all-clear line.  Otherwise it is a header with the number of all
    recent anomalies, followed by a section for [critical], then one for
    [warning], then one for [info]; a section is there only when some
    recent anomaly has that severity, and it lists the first three of
    them, most recent first, one line each.  Anomalies past the third of a
    severity, and anomalies of any other severity, are counted in the
    header but not listed. *)
Theorem alert_summary_sections (clk : Clock) (db : Store) :
  alert_summary clk db
  = match detect_anomalies clk db with
    | [] => (Py.chr 0x2713 ++ " No active anomalies")%string
    | recent =>
        (Py.chr 0x26A0 ++ " "
         ++ Fmt.digits (Z.of_nat (List.length recent))
         ++ " anomalies detected:" ++ Fmt.newline
         ++ summary_section "critical" recent
         ++ summary_section "warning" recent
         ++ summary_section "info" recent)%string
    end.
Proof.
  exact (alert_summary_text clk db).
Qed.

Example alert_summary_of_two_alerts :
  alert_summary clock_report db_two_alerts
  = String.concat Fmt.newline
      [(Py.chr 0x26A0 ++ " 3 anomalies detected:")%string;
       "";
       "  CRITICAL:";
       ("    " ++ Py.chr 0x2022
        ++ " ocean_acidification: 7.12 (S_ARCTIC_01)")%string;
       ("    " ++ Py.chr 0x2022 ++ " hypoxia: 3.00 (S_ARCTIC_01)")%string;
       "";
       "  WARNING:";
       ("    " ++ Py.chr 0x2022
        ++ " high_temperature: 31.46 (S_ARCTIC_01)")%string;
       ""].
Proof. reflexivity. Qed.

(** ** The export *)

Lemma export_loop (db : Store) (l : list OceanSensor.t) (stub : NetCDF.t) :
  let sampled :=
    flat_map (fun sensor =>
                match get_latest (OceanSensor.id sensor) db with
                | Some latest => [(sensor, latest)]
                | None => []
                end) l in
  let extend (v : NetCDF.variable) (f : OceanSensor.t * OceanReading.t -> Q) :=
    NetCDF.mkVar (NetCDF.units v) (NetCDF.data v ++ map f sampled) in
  fold_left
    (fun stub sensor =>
       match get_latest (OceanSensor.id sensor) db with
       | Some latest =>
           NetCDF.mk (NetCDF.dim_time stub) (NetCDF.dim_station stub)
             (NetCDF.time stub)
             (NetCDF.append (NetCDF.lat stub) (OceanSensor.lat sensor))
             (NetCDF.append (NetCDF.lon stub) (OceanSensor.lon sensor))
             (NetCDF.append (NetCDF.depth stub) (OceanReading.depth_m latest))
             (NetCDF.append (NetCDF.temperature stub)
                (OceanReading.temperature_c latest))
             (NetCDF.append (NetCDF.salinity stub)
                (OceanReading.salinity_psu latest))
             (NetCDF.append (NetCDF.ph stub) (OceanReading.ph latest))
             (NetCDF.append (NetCDF.dissolved_oxygen stub)
                (OceanReading.dissolved_o2_mgl latest))
             (NetCDF.title stub) (NetCDF.source stub) (NetCDF.created stub)
       | None => stub
       end) l stub
  = NetCDF.mk (NetCDF.dim_time stub) (NetCDF.dim_station stub)
      (NetCDF.time stub)
      (extend (NetCDF.lat stub) (fun p => OceanSensor.lat (fst p)))
      (extend (NetCDF.lon stub) (fun p => OceanSensor.lon (fst p)))
      (extend (NetCDF.depth stub) (fun p => OceanReading.depth_m (snd p)))
      (extend (NetCDF.temperature stub)
         (fun p => OceanReading.temperature_c (snd p)))
      (extend (NetCDF.salinity stub)
         (fun p => OceanReading.salinity_psu (snd p)))
      (extend (NetCDF.ph stub) (fun p => OceanReading.ph (snd p)))
      (extend (NetCDF.dissolved_oxygen stub)
         (fun p => OceanReading.dissolved_o2_mgl (snd p)))
      (NetCDF.title stub) (NetCDF.source stub) (NetCDF.created stub).
Proof.
  cbv zeta. revert stub.
  induction l as [|sensor l IH]; intro stub.
  - simpl. rewrite !app_nil_r. now destruct stub as [? ? [] [] [] [] [] [] [] [] ? ? ?].
  - cbn [fold_left flat_map].
    destruct (get_latest (OceanSensor.id sensor) db) as [latest|].
    + rewrite IH. unfold NetCDF.append. cbn [NetCDF.units NetCDF.data
        NetCDF.dim_time NetCDF.dim_station NetCDF.time NetCDF.lat NetCDF.lon
        NetCDF.depth NetCDF.temperature NetCDF.salinity NetCDF.ph
        NetCDF.dissolved_oxygen NetCDF.title NetCDF.source NetCDF.created
        app map fst snd].
      rewrite <- !app_assoc. reflexivity.
    + rewrite IH. reflexivity.
Qed.

Lemma sampled_sensors_length (db : Store) :
  (List.length (sampled_sensors db) <= List.length (sensors db))%nat.
Proof.
  unfold sampled_sensors.
  induction (sensors db) as [|s l IH]; simpl; [lia|].
  destruct (get_latest (OceanSensor.id s) db); simpl; lia.
Qed.

(** X13: in the dictionary [export_netcdf_stub] builds, the arrays of
    latitude, longitude, depth, temperature, salinity, pH and dissolved
    oxygen are aligned: the entries at one index come from one sensor that
    has a latest reading and from that reading, in table order, and
    sensors without a reading are skipped in all of them.  The station
    dimension counts every sensor of the table, so the arrays can be
    shorter than it; the time array is always empty. *)
Theorem export_netcdf_stub_arrays (clk : Clock) (db : Store) :
  let stub := export_netcdf_stub clk db in
  let sampled := sampled_sensors db in
  NetCDF.data (NetCDF.lat stub) = map (fun p => OceanSensor.lat (fst p)) sampled
  /\ NetCDF.data (NetCDF.lon stub)
     = map (fun p => OceanSensor.lon (fst p)) sampled
  /\ NetCDF.data (NetCDF.depth stub)
     = map (fun p => OceanReading.depth_m (snd p)) sampled
  /\ NetCDF.data (NetCDF.temperature stub)
     = map (fun p => OceanReading.temperature_c (snd p)) sampled
  /\ NetCDF.data (NetCDF.salinity stub)
     = map (fun p => OceanReading.salinity_psu (snd p)) sampled
  /\ NetCDF.data (NetCDF.ph stub)
     = map (fun p => OceanReading.ph (snd p)) sampled
  /\ NetCDF.data (NetCDF.dissolved_oxygen stub)
     = map (fun p => OceanReading.dissolved_o2_mgl (snd p)) sampled
  /\ NetCDF.data (NetCDF.time stub) = []
  /\ NetCDF.dim_station stub = Z.of_nat (List.length (sensors db))
  /\ (List.length sampled <= List.length (sensors db))%nat
  /\ (forall p, In p sampled ->
                In (fst p) (sensors db)
                /\ get_latest (OceanSensor.id (fst p)) db = Some (snd p)).
Proof.
  intros stub sampled. unfold stub, export_netcdf_stub.
  rewrite export_loop. cbn [NetCDF.data NetCDF.lat NetCDF.lon NetCDF.depth
    NetCDF.temperature NetCDF.salinity NetCDF.ph NetCDF.dissolved_oxygen
    NetCDF.time NetCDF.dim_station app].
  fold (sampled_sensors db). fold sampled.
  repeat (split; [reflexivity|]).
  split; [apply sampled_sensors_length|].
  intros p Hp. unfold sampled, sampled_sensors in Hp.
  apply in_flat_map in Hp. destruct Hp as (s & Hs & Hp).
  destruct (get_latest (OceanSensor.id s) db) as [latest|] eqn:E;
    [|contradiction].
  destruct Hp as [<-|[]]. simpl. now split.
Qed.

Lemma export_netcdf_stub_arrays_demo :
  NetCDF.data (NetCDF.lat (export_netcdf_stub clock_report db_two_alerts))
  = [35.5; 78.5]%Q
  /\ NetCDF.dim_station (export_netcdf_stub clock_report db_two_alerts) = 3%Z
  /\ get_latest "S_ARCTIC_01" db_two_alerts
     = Some (OceanReading.mk "S_ARCTIC_01" 31.456 35 7.123 3 0 3000
               "2024-03-02T10:00:00").
Proof.
  split; [reflexivity|]. split; [reflexivity|].
  refine (proj2
            (proj2 (proj2 (proj2 (proj2 (proj2 (proj2 (proj2 (proj2 (proj2
               (proj2
                  (export_netcdf_stub_arrays clock_report
                     db_two_alerts))))))))))
               (OceanSensor.mk "S_ARCTIC_01" "Arctic Glider" "glider" 78.5
                  15.2 3000 "active" (Some "2024-03-02T10:00:00"),
                OceanReading.mk "S_ARCTIC_01" 31.456 35 7.123 3 0 3000
                  "2024-03-02T10:00:00") _)).
  right. left. reflexivity.
Defined.

(** ** The heat map as a whole *)

Lemma existsb_map {A B} (f : B -> bool) (g : A -> B) (l : list A) :
  existsb f (map g l) = existsb (fun x => f (g x)) l.
Proof. induction l as [|x l IH]; simpl; [reflexivity|now rewrite IH]. Qed.

(** X14: [heatmap_ascii] answers "No data available" exactly when no
    sensor of the table has a reading, whatever the parameter; as soon as
    one sensor has a reading it draws a grid. *)
Theorem heatmap_no_data (parameter : string) (db : Store) :
  heatmap_ascii parameter db = "No data available"
  <-> forall s, In s (sensors db) ->
                get_latest (OceanSensor.id s) db = None.
Proof.
  unfold heatmap_ascii.
  set (any := existsb _ (fleet_status db)).
  assert (Hany : any = true
                 <-> exists s, In s (sensors db)
                               /\ get_latest (OceanSensor.id s) db <> None).
  { unfold any, fleet_status. rewrite existsb_map, existsb_exists. simpl.
    split; intros (s & Hs & H); exists s; split; auto;
      destruct (get_latest (OceanSensor.id s) db); congruence. }
  destruct any.
  - assert (Hfleet : fleet_status db <> []).
    { destruct (proj1 Hany eq_refl) as (s & Hs & _).
      unfold fleet_status. destruct (sensors db); [contradiction|discriminate]. }
    destruct (fleet_status db) as [|e fleet] eqn:Efleet; [congruence|].
    cbn [orb negb]. split.
    + intro H. exfalso.
      match type of H with
      | String.concat _ (?header :: ?rows) = _ =>
          destruct rows; simpl in H; discriminate H
      end.
    + intro Hnone. exfalso.
      destruct (proj1 Hany eq_refl) as (s & Hs & Hsome).
      exact (Hsome (Hnone s Hs)).
  - rewrite orb_true_r. split; [|reflexivity].
    intros _ s Hs.
    destruct (get_latest (OceanSensor.id s) db) eqn:E; [|reflexivity].
    assert (false = true); [|discriminate].
    apply Hany. exists s. split; [exact Hs|congruence].
Qed.

Lemma heatmap_no_data_demo :
  heatmap_ascii "salinity" fresh_db = "No data available"
  /\ heatmap_ascii "salinity" db_one_reading <> "No data available".
Proof.
  split.
  - apply (proj2 (heatmap_no_data "salinity" fresh_db)).
    intros s Hs. reflexivity.
  - intro H.
    pose proof (proj1 (heatmap_no_data "salinity" db_one_reading) H _
                  (or_introl eq_refl)) as Hnone.
    discriminate Hnone.
Defined.

(** X15: a grid cell shows the first sensor of the table at exactly its
    coordinates.  A later sensor at the same coordinates never shows,
    even when it has a reading and the first one has none. *)
Theorem heatmap_cell_first_match (parameter : string)
  (before after : list FleetEntry.t) (s : FleetEntry.t) (lat lon : Q) :
  (FleetEntry.lat s == lat)%Q -> (FleetEntry.lon s == lon)%Q ->
  (forall e, In e before ->
             ~ ((FleetEntry.lat e == lat)%Q /\ (FleetEntry.lon e == lon)%Q)) ->
  heatmap_cell parameter (before ++ s :: after) lat lon
  = match FleetEntry.last_reading s with
    | Some last_reading => Py.rjust 6 (heatmap_char parameter last_reading)
    | None => "     ?"
    end.
Proof.
  intros Hlat Hlon Hbefore. unfold heatmap_cell, sensor_at.
  assert (Hfind : find (fun s0 => Qeq_bool (FleetEntry.lat s0) lat
                                  && Qeq_bool (FleetEntry.lon s0) lon)
                    (before ++ s :: after) = Some s).
  { induction before as [|e before IH]; simpl.
    - apply Qeq_bool_iff in Hlat, Hlon. now rewrite Hlat, Hlon.
    - destruct (Qeq_bool (FleetEntry.lat e) lat
                && Qeq_bool (FleetEntry.lon e) lon) eqn:E.
      + exfalso. apply andb_true_iff in E. destruct E as [E1 E2].
        apply Qeq_bool_iff in E1, E2.
        apply (Hbefore e (or_introl eq_refl)). now split.
      + apply IH. intros e' He'. apply Hbefore. now right. }
  now rewrite Hfind.
Qed.

Lemma heatmap_cell_first_match_demo :
  heatmap_cell "temperature" (fleet_status db_twin) 78.5 15.2 = "     ?"
  /\ get_latest "S_0A1B2C3D" db_twin
     = Some (OceanReading.mk "S_0A1B2C3D" 28 35 8 6 0 50
               "2024-03-02T10:00:00").
Proof.
  split; [|reflexivity].
  refine (heatmap_cell_first_match "temperature"
            [FleetEntry.mk "S_PACIFIC_01" "Pacific Buoy" "buoy" 35.5 (-120.3)
               4000 "active" None;
             FleetEntry.mk "S_ATLANTIC_01" "Atlantic Mooring" "mooring" 45.2
               (-30.1) 5000 "active" None]
            [FleetEntry.mk "S_0A1B2C3D" "Arctic Twin" "auv" 78.5 15.2 50
               "active"
               (Some (OceanReading.mk "S_0A1B2C3D" 28 35 8 6 0 50
                        "2024-03-02T10:00:00"))]
            (FleetEntry.mk "S_ARCTIC_01" "Arctic Glider" "glider" 78.5 15.2
               3000 "active" None)
            78.5 15.2 _ _ _).
  - reflexivity.
  - reflexivity.
  - intros e [<-|[<-|[]]] [H _]; discriminate H.
Defined.

(** ** Invariants of the stored data *)

Lemma last_inserted_ts_snoc s (rs : list OceanReading.t)
  az (r : OceanReading.t) (other : string) :
  last_inserted_ts other (mkStore s (rs ++ [r]) az)
  = if OceanReading.sensor_id r =? other
    then Some (OceanReading.timestamp r)
    else last_inserted_ts other (mkStore s rs az).
Proof.
  unfold last_inserted_ts, readings_of. simpl. rewrite filter_app. simpl.
  destruct (OceanReading.sensor_id r =? other).
  - now rewrite rev_unit.
  - now rewrite app_nil_r.
Qed.

Lemma consistent_initialize (db : Store) :
  consistent db -> consistent (_initialize_demo_sensors db).
Proof.
  intros (Hnodup & Hread & Hanom & Hptr).
  unfold _initialize_demo_sensors.
  destruct db as [ss rs az]. simpl in *.
  destruct ss as [|s ss]; simpl; [|repeat split; assumption].
  assert (Hrs : rs = []).
  { destruct rs as [|r rs]; [reflexivity|].
    destruct (Hread r (or_introl eq_refl)). }
  assert (Haz : az = []).
  { destruct az as [|a az]; [reflexivity|].
    destruct (Hanom a (or_introl eq_refl)). }
  subst rs az. unfold consistent. simpl. split.
  - repeat constructor; simpl; intuition discriminate.
  - split; [intros r []|]. split; [intros a []|].
    intros s [<-|[<-|[<-|[]]]]; reflexivity.
Qed.

Lemma consistent_deploy uuid4_hex name type_ lat lon depth_m (db : Store) :
  consistent db ->
  consistent (snd (deploy_sensor uuid4_hex name type_ lat lon depth_m db)).
Proof.
  intros (Hnodup & Hread & Hanom & Hptr).
  destruct (deploy_sensor uuid4_hex name type_ lat lon depth_m db)
    as [[e|sensor] db1] eqn:Hrun.
  - assert (db1 = db).
    { revert Hrun. unfold deploy_sensor.
      destruct (negb _); [congruence|].
      unfold transaction, bind.
      destruct (insert_sensor _ db) as [[e'|u] db2]; simpl; congruence. }
    subst db1. simpl. repeat split; assumption.
  - destruct (deploy_sensor_ok_inv _ _ _ _ _ _ _ _ _ Hrun)
      as (_ & Hfresh & Hsensor & ->).
    assert (Hid : OceanSensor.id sensor = new_sensor_id uuid4_hex)
      by (now rewrite Hsensor).
    unfold consistent. simpl. rewrite map_app. simpl. split.
    + apply NoDup_app_remove_l with (l := []). simpl.
      apply (Permutation_NoDup
               (l := OceanSensor.id sensor :: map OceanSensor.id (sensors db))).
      * apply Permutation_cons_append.
      * constructor; [now rewrite Hid|exact Hnodup].
    + split; [intros r Hr; apply in_or_app; left; now apply Hread|].
      split; [intros a Ha; apply in_or_app; left; now apply Hanom|].
      intros s Hs. apply in_app_or in Hs. destruct Hs as [Hs|[<-|[]]].
      * exact (Hptr s Hs).
      * unfold last_inserted_ts, readings_of. simpl.
        assert (Hnone : filter
                          (fun r => OceanReading.sensor_id r
                                    =? OceanSensor.id sensor)
                          (readings db) = []).
        { destruct (filter _ (readings db)) as [|r l] eqn:E; [reflexivity|].
          assert (Hr : In r (r :: l)) by now left.
          rewrite <- E in Hr. apply filter_In in Hr. destruct Hr as [Hr Hsid].
          apply String.eqb_eq in Hsid. exfalso. apply Hfresh.
          rewrite <- Hid, <- Hsid. now apply Hread. }
        rewrite Hnone, Hsensor. reflexivity.
Qed.

Lemma consistent_ingest
  clk sensor_id temp salinity ph o2 current depth (db : Store) :
  consistent db ->
  consistent
    (snd (ingest_reading clk sensor_id temp salinity ph o2 current depth db)).
Proof.
  intros (Hnodup & Hread & Hanom & Hptr).
  destruct (ingest_reading_outcome clk sensor_id temp salinity ph o2 current
              depth db) as [[_ Hrun]|(row & Hrow & Hid & Hrun)];
    rewrite Hrun; simpl; [repeat split; assumption|].
  assert (Hids : map OceanSensor.id
                   (map (fun s => if OceanSensor.id s =? sensor_id
                                  then touched (now clk) s else s)
                      (sensors db))
                 = map OceanSensor.id (sensors db)).
  { rewrite map_map. apply map_ext. intro s.
    now destruct (OceanSensor.id s =? sensor_id). }
  unfold consistent. simpl. rewrite Hids.
  split; [exact Hnodup|]. split; [|split].
  - intros r Hr. apply in_app_or in Hr. destruct Hr as [Hr|[<-|[]]].
    + now apply Hread.
    + simpl. rewrite <- Hid. now apply in_map.
  - intros a Ha. apply in_app_or in Ha. destruct Ha as [Ha|Ha].
    + now apply Hanom.
    + assert (Hsid : Anomaly.sensor_id a = sensor_id).
      { revert Ha. unfold triggered, rule, high_temperature,
          ocean_acidification, hypoxia.
        destruct (Py.ltb 30 temp), (Py.ltb ph 7.8), (Py.ltb o2 4); simpl;
          intuition (subst; reflexivity). }
      rewrite Hsid, <- Hid. now apply in_map.
  - intros s Hs. apply in_map_iff in Hs. destruct Hs as (s0 & <- & Hs0).
    rewrite last_inserted_ts_snoc. simpl.
    destruct (String.eqb_spec (OceanSensor.id s0) sensor_id) as [E|E]; simpl.
    + rewrite E, String.eqb_refl. reflexivity.
    + apply not_eq_sym in E. apply String.eqb_neq in E. rewrite E.
      rewrite (Hptr s0 Hs0). reflexivity.
Qed.

Lemma reachable_is_consistent (db : Store) : reachable db -> consistent db.
Proof.
  induction 1.
  - unfold consistent. simpl.
    split; [constructor|]. repeat split; intros ? [].
  - now apply consistent_initialize.
  - now apply consistent_deploy.
  - now apply consistent_ingest.
Qed.

(** X16: in every database the program can produce, sensor ids are
    unique, every reading and every anomaly belongs to a sensor of the
    table, and each sensor's last-reading timestamp is the timestamp of
    the reading inserted last for it; in particular a sensor has no
    last-reading timestamp exactly when [get_latest] finds no reading for
    it. *)
Theorem reachable_databases_are_consistent (db : Store) :
  reachable db ->
  consistent db
  /\ (forall s, In s (sensors db) ->
                (OceanSensor.last_reading_ts s = None
                 <-> get_latest (OceanSensor.id s) db = None)).
Proof.
  intro Hreach. pose proof (reachable_is_consistent db Hreach) as Hcons.
  split; [exact Hcons|].
  intros s Hs. destruct Hcons as (_ & _ & _ & Hptr).
  rewrite (Hptr s Hs), (proj1 (get_latest_lookup (OceanSensor.id s) db)).
  unfold last_inserted_ts.
  destruct (readings_of (OceanSensor.id s) db) as [|r l] eqn:E using rev_ind.
  - split; reflexivity.
  - rewrite rev_unit. simpl. split; [discriminate|].
    intro H. destruct l; discriminate H.
Qed.

Lemma deploy_sensor_failure_keeps_db
  uuid4_hex name type_ lat lon depth_m (db db1 : Store) e :
  deploy_sensor uuid4_hex name type_ lat lon depth_m db = (inl e, db1) ->
  db1 = db.
Proof.
  unfold deploy_sensor. destruct (negb _); [congruence|].
  unfold transaction, bind.
  destruct (insert_sensor _ db) as [[e'|u] db2]; simpl; congruence.
Qed.

Lemma writers_frame (db : Store) :
  (forall clk sensor_id temp salinity ph o2 current depth r,
      In r (readings db) ->
      In r (readings
              (snd (ingest_reading clk sensor_id temp salinity ph o2 current
                      depth db))))
  /\ (forall uuid4_hex name type_ lat lon depth_m,
         let db' :=
           snd (deploy_sensor uuid4_hex name type_ lat lon depth_m db) in
         readings db' = readings db /\ anomalies db' = anomalies db).
Proof.
  split.
  - intros clk sensor_id temp salinity ph o2 current depth r Hr.
    destruct (ingest_reading_outcome clk sensor_id temp salinity ph o2
                current depth db) as [[_ Hrun]|(row & _ & _ & Hrun)];
      rewrite Hrun; simpl; [exact Hr|].
    apply in_or_app. now left.
  - intros uuid4_hex name type_ lat lon depth_m db'. unfold db'.
    destruct (deploy_sensor uuid4_hex name type_ lat lon depth_m db)
      as [[e|sensor] db1] eqn:Hrun; simpl.
    + now rewrite (deploy_sensor_failure_keeps_db _ _ _ _ _ _ _ _ _ Hrun).
    + destruct (deploy_sensor_ok_inv _ _ _ _ _ _ _ _ _ Hrun)
        as (_ & _ & _ & ->). now split.
Qed.

Lemma reachable_db_one_reading : reachable db_one_reading.
Proof.
  exact (reach_ingest _ (clock_at "2024-03-01T12:00:00.000000")
           "S_PACIFIC_01" 32 35 8 5 0 None
           (reach_init _ reach_empty)).
Qed.

Lemma reachable_databases_are_consistent_demo :
  reachable db_one_reading
  /\ NoDup (map OceanSensor.id (sensors db_one_reading))
  /\ get_latest "S_ATLANTIC_01" db_one_reading = None.
Proof.
  split; [exact reachable_db_one_reading|].
  destruct (reachable_databases_are_consistent db_one_reading
              reachable_db_one_reading) as [(Hnodup & _) Hptr].
  split; [exact Hnodup|].
  refine (proj1 (Hptr (OceanSensor.mk "S_ATLANTIC_01" "Atlantic Mooring"
                         "mooring" 45.2 (-30.1) 5000 "active" None) _)
            eq_refl).
  right. left. reflexivity.
Defined.

Lemma triggered_backed clk sensor_id temp salinity ph o2 current depth row a :
  In a (triggered sensor_id temp ph o2 (now clk)) ->
  backed_by a (ingested clk sensor_id temp salinity ph o2 current depth row).
Proof.
  unfold triggered, rule, backed_by, ingested.
  destruct (Py.ltb 30 temp) eqn:Et, (Py.ltb ph 7.8) eqn:Ep,
    (Py.ltb o2 4) eqn:Eo; simpl;
    try apply Py_ltb_true in Et; try apply Py_ltb_true in Ep;
    try apply Py_ltb_true in Eo;
    intros H; repeat (destruct H as [<-|H]); try contradiction; simpl;
    repeat split; auto 10.
Qed.

Lemma reachable_all_backed (db : Store) : reachable db -> all_backed db.
Proof.
  induction 1 as [|db Hreach IH|db uuid4_hex name type_ lat lon depth_m Hreach IH
                 |db clk sensor_id temp salinity ph o2 current depth Hreach IH].
  - intros a [].
  - unfold _initialize_demo_sensors.
    destruct (List.length (sensors db) =? 0)%nat; exact IH.
  - destruct (proj2 (writers_frame db) uuid4_hex name type_ lat lon depth_m)
      as (Hr & Ha).
    intros a Ha'. rewrite Ha in Ha'. destruct (IH a Ha') as (r & Hin & Hb).
    exists r. rewrite Hr. now split.
  - destruct (ingest_reading_outcome clk sensor_id temp salinity ph o2
                current depth db) as [[_ Hrun]|(row & _ & _ & Hrun)];
      rewrite Hrun; simpl; [exact IH|].
    intros a Ha. unfold all_backed in IH. simpl in *.
    apply in_app_or in Ha. destruct Ha as [Ha|Ha].
    + destruct (IH a Ha) as (r & Hin & Hb). exists r.
      split; [apply in_or_app; now left|exact Hb].
    + eexists. split; [apply in_or_app; right; left; reflexivity|].
      now apply triggered_backed.
Qed.

(** X17: in every database the program can produce, each anomaly row is
    backed by a stored reading of the same sensor with the same
    timestamp: a [high_temperature] row has severity [warning] and carries
    that reading's temperature, which is above 30; an
    [ocean_acidification] row is [critical] and carries its pH, below 7.8;
    a [hypoxia] row is [critical] and carries its dissolved oxygen, below
    4.  There is no other kind of row. *)
Theorem reachable_anomalies_are_backed (db : Store) :
  reachable db -> all_backed db.
Proof.
  exact (reachable_all_backed db).
Qed.

Lemma reachable_db_hot_acid_hypoxic : reachable db_hot_acid_hypoxic.
Proof.
  exact (reach_ingest _ (clock_at "2024-03-01T12:00:00") "S_PACIFIC_01"
           31 35 7 3 0 None (reach_init _ reach_empty)).
Qed.

Lemma reachable_anomalies_are_backed_demo :
  reachable db_hot_acid_hypoxic
  /\ exists r,
      In r (readings db_hot_acid_hypoxic)
      /\ backed_by (hypoxia "S_PACIFIC_01" 3 "2024-03-01T12:00:00") r.
Proof.
  split; [exact reachable_db_hot_acid_hypoxic|].
  apply (reachable_anomalies_are_backed db_hot_acid_hypoxic
           reachable_db_hot_acid_hypoxic).
  right. right. left. reflexivity.
Defined.

Lemma demo_sensors_well_formed (s : OceanSensor.t) :
  In s demo_sensors -> well_formed_sensor s.
Proof.
  intros [<-|[<-|[<-|[]]]]; unfold well_formed_sensor; simpl;
    repeat split; auto 10.
Qed.

(** X18: in every database the program can produce, every sensor has
    status [active], one of the six sensor types, and an id that starts
    with [S_]: nothing in the module ever writes another status, and an
    ingest leaves these columns alone. *)
Theorem reachable_sensors_are_well_formed (db : Store) :
  reachable db ->
  forall s, In s (sensors db) -> well_formed_sensor s.
Proof.
  induction 1 as [|db Hreach IH|db uuid4_hex name type_ lat lon depth_m Hreach IH
                 |db clk sensor_id temp salinity ph o2 current depth Hreach IH].
  - intros s [].
  - unfold _initialize_demo_sensors.
    destruct (List.length (sensors db) =? 0)%nat; [|exact IH].
    simpl. intros s Hs. apply in_app_or in Hs.
    destruct Hs as [Hs|Hs]; [now apply IH|now apply demo_sensors_well_formed].
  - destruct (deploy_sensor uuid4_hex name type_ lat lon depth_m db)
      as [[e|sensor] db1] eqn:Hrun; simpl.
    + now rewrite (deploy_sensor_failure_keeps_db _ _ _ _ _ _ _ _ _ Hrun).
    + destruct (deploy_sensor_ok_inv _ _ _ _ _ _ _ _ _ Hrun)
        as (Hgood & _ & Hsensor & ->).
      simpl. intros s Hs. apply in_app_or in Hs.
      destruct Hs as [Hs|[<-|[]]]; [now apply IH|].
      rewrite Hsensor. unfold well_formed_sensor. simpl.
      split; [reflexivity|]. split; [exact Hgood|].
      apply prefix_new_sensor_id.
  - destruct (ingest_reading_outcome clk sensor_id temp salinity ph o2
                current depth db) as [[_ Hrun]|(row & _ & _ & Hrun)];
      rewrite Hrun; simpl; [exact IH|].
    intros s Hs. apply in_map_iff in Hs. destruct Hs as (s0 & <- & Hs0).
    specialize (IH s0 Hs0).
    now destruct (OceanSensor.id s0 =? sensor_id).
Qed.

Lemma reachable_sensors_are_well_formed_demo :
  reachable db_one_reading
  /\ well_formed_sensor
       (OceanSensor.mk "S_PACIFIC_01" "Pacific Buoy" "buoy" 35.5 (-120.3)
          4000 "active" (Some "2024-03-01T12:00:00.000000")).
Proof.
  split; [exact reachable_db_one_reading|].
  apply (reachable_sensors_are_well_formed db_one_reading
           reachable_db_one_reading).
  left. reflexivity.
Defined.

Lemma severity_partition (l : list Anomaly.t) :
  (forall a, In a l ->
             Anomaly.severity a = "critical"
             \/ Anomaly.severity a = "warning") ->
  filter (has_severity "info") l = []
  /\ List.length l
     = (List.length (filter (has_severity "critical") l)
        + List.length (filter (has_severity "warning") l))%nat.
Proof.
  induction l as [|a l IH]; intro H; [split; reflexivity|].
  destruct IH as [IHinfo IHlen]; [intros x Hx; apply H; now right|].
  unfold has_severity in *. simpl.
  destruct (H a (or_introl eq_refl)) as [E|E]; rewrite E; simpl;
    split; try exact IHinfo; lia.
Qed.

(** X19: on every database the program can produce, [alert_summary]
    never shows an [INFO] section: every recent anomaly is critical or a
    warning, so the number in the header is the number of critical ones
    plus the number of warnings, and the text after the header is the
    critical section followed by the warning section. *)
Theorem alert_summary_has_no_info_section (clk : Clock) (db : Store) :
  reachable db ->
  let recent := detect_anomalies clk db in
  summary_section "info" recent = ""
  /\ List.length recent
     = (List.length (filter (has_severity "critical") recent)
        + List.length (filter (has_severity "warning") recent))%nat
  /\ (recent <> [] ->
      alert_summary clk db
      = (Py.chr 0x26A0 ++ " "
         ++ Fmt.digits (Z.of_nat (List.length recent))
         ++ " anomalies detected:" ++ Fmt.newline
         ++ summary_section "critical" recent
         ++ summary_section "warning" recent)%string).
Proof.
  intros Hreach. cbv zeta.
  pose proof (alert_summary_text clk db) as Htext.
  pose proof (detect_anomalies_In clk db) as Hmem.
  remember (detect_anomalies clk db) as recent eqn:Erecent.
  clear Erecent.
  assert (Hsev : forall a, In a recent ->
                           Anomaly.severity a = "critical"
                           \/ Anomaly.severity a = "warning").
  { intros a Ha. apply Hmem in Ha. destruct Ha as [Ha _].
    destruct (reachable_all_backed db Hreach a Ha)
      as (r & _ & _ & _ & [H|[H|H]]); tauto. }
  destruct (severity_partition recent Hsev) as [Hinfo Hlen].
  assert (Hsec : summary_section "info" recent = "")
    by (unfold summary_section; now rewrite Hinfo).
  split; [exact Hsec|]. split; [exact Hlen|].
  intro Hsome. rewrite Htext.
  destruct recent as [|a l]; [congruence|].
  cbv beta iota zeta. rewrite Hsec, string_app_nil_r. reflexivity.
Qed.

Lemma reachable_db_two_alerts : reachable db_two_alerts.
Proof.
  exact (reach_ingest _ (clock_at "2024-03-02T10:00:00") "S_ARCTIC_01"
           31.456 35 7.123 3 0 None reachable_db_hot_acid_hypoxic).
Qed.

Lemma alert_summary_has_no_info_section_demo :
  reachable db_two_alerts
  /\ detect_anomalies clock_report db_two_alerts <> []
  /\ alert_summary clock_report db_two_alerts
     = (Py.chr 0x26A0 ++ " 3 anomalies detected:" ++ Fmt.newline
        ++ summary_section "critical"
             (detect_anomalies clock_report db_two_alerts)
        ++ summary_section "warning"
             (detect_anomalies clock_report db_two_alerts))%string.
Proof.
  assert (Hsome : detect_anomalies clock_report db_two_alerts <> [])
    by discriminate.
  split; [exact reachable_db_two_alerts|]. split; [exact Hsome|].
  exact (proj2 (proj2 (alert_summary_has_no_info_section clock_report
                         db_two_alerts reachable_db_two_alerts)) Hsome).
Defined.

(** ** Heat content over a list of sensors *)

(** X21: [calculate_heat_content] skips every id for which no reading is
    stored, ids of unknown sensors included: the result is that of the
    list with these ids removed; when no listed id has a reading the
    total and the average are 0 and nothing is sampled; and the count
    never exceeds the length of the list. *)
Theorem heat_content_skips_sensors_without_reading
  (sensor_ids : list string) (db : Store) :
  let has_reading sensor_id :=
    match get_latest sensor_id db with Some _ => true | None => false end in
  calculate_heat_content sensor_ids db
  = calculate_heat_content (filter has_reading sensor_ids) db
  /\ ((forall sensor_id, In sensor_id sensor_ids ->
                         get_latest sensor_id db = None) ->
      calculate_heat_content sensor_ids db = HeatContent.mk 0 0 0)
  /\ (0 <= HeatContent.sensors_sampled (calculate_heat_content sensor_ids db)
      <= Z.of_nat (List.length sensor_ids))%Z.
Proof.
  intro has_reading.
  assert (Hfilter : latest_readings sensor_ids db
                    = latest_readings (filter has_reading sensor_ids) db).
  { unfold latest_readings, has_reading.
    induction sensor_ids as [|sid l IH]; simpl; [reflexivity|].
    destruct (get_latest sid db) as [r|] eqn:E; simpl.
    - rewrite E. simpl. now rewrite IH.
    - exact IH. }
  split; [|split].
  - rewrite !calculate_heat_content_eq. now rewrite <- Hfilter.
  - intro Hnone. rewrite calculate_heat_content_eq.
    assert (Hempty : latest_readings sensor_ids db = []).
    { unfold latest_readings. clear Hfilter.
      induction sensor_ids as [|sid l IH]; simpl; [reflexivity|].
      rewrite (Hnone sid (or_introl eq_refl)). simpl.
      apply IH. intros x Hx. apply Hnone. now right. }
    rewrite Hempty. reflexivity.
  - rewrite calculate_heat_content_eq. cbv zeta. simpl. rewrite length_map.
    split; [lia|]. apply inj_le. unfold latest_readings.
    clear Hfilter. induction sensor_ids as [|sid l IH]; simpl; [lia|].
    destruct (get_latest sid db); simpl; lia.
Qed.

Lemma heat_content_skips_sensors_without_reading_demo :
  (forall sensor_id, In sensor_id ["S_ATLANTIC_01"; "S_NOWHERE"] ->
                     get_latest sensor_id db_one_reading = None)
  /\ calculate_heat_content ["S_ATLANTIC_01"; "S_NOWHERE"] db_one_reading
     = HeatContent.mk 0 0 0.
Proof.
  assert (H : forall sensor_id,
             In sensor_id ["S_ATLANTIC_01"; "S_NOWHERE"] ->
             get_latest sensor_id db_one_reading = None).
  { intros sid [<-|[<-|[]]]; reflexivity. }
  split; [exact H|].
  exact (proj1 (proj2 (heat_content_skips_sensors_without_reading
                         ["S_ATLANTIC_01"; "S_NOWHERE"] db_one_reading)) H).
Defined.

(** ** From deployment to the first reading *)

(** X22: deploy a sensor, then ingest a reading for it without a depth.
    On any database the program can produce the ingest succeeds, the
    reading carries the depth given at deployment, and [get_latest], which
    found nothing for the new sensor before, returns exactly this reading,
    whatever the clock reads. *)
Theorem first_reading_of_new_sensor
  uuid4_hex name type_ lat lon depth_m (db db' : Store) sensor
  clk temp salinity ph o2 current :
  reachable db ->
  deploy_sensor uuid4_hex name type_ lat lon depth_m db = (inr sensor, db') ->
  exists reading db'',
    ingest_reading clk (OceanSensor.id sensor) temp salinity ph o2 current
      None db' = (inr reading, db'')
    /\ OceanReading.depth_m reading = depth_m
    /\ get_latest (OceanSensor.id sensor) db' = None
    /\ get_latest (OceanSensor.id sensor) db'' = Some reading.
Proof.
  intros Hreach Hdeploy.
  destruct (reachable_is_consistent db Hreach) as (_ & Hread & _ & _).
  destruct (deploy_sensor_ok_inv _ _ _ _ _ _ _ _ _ Hdeploy)
    as (_ & Hfresh & Hsensor & Hdb).
  assert (Hid : OceanSensor.id sensor = new_sensor_id uuid4_hex)
    by (now rewrite Hsensor).
  assert (Hnone : readings_of (OceanSensor.id sensor) db' = []).
  { rewrite Hdb. unfold readings_of. simpl.
    destruct (filter _ (readings db)) as [|r l] eqn:E; [reflexivity|].
    assert (Hr : In r (r :: l)) by now left.
    rewrite <- E in Hr. apply filter_In in Hr. destruct Hr as [Hr Hsid].
    apply String.eqb_eq in Hsid. exfalso. apply Hfresh.
    rewrite <- Hid, <- Hsid. now apply Hread. }
  assert (Hsel : select_sensor (OceanSensor.id sensor) db' = (Some sensor, db')).
  { rewrite Hdb. apply (select_sensor_appended sensor db). now rewrite Hid. }
  do 2 eexists. split.
  - exact (ingest_reading_found clk (OceanSensor.id sensor) temp salinity ph
             o2 current None db' sensor Hsel).
  - split; [now rewrite Hsensor|]. split.
    + now apply (proj1 (get_latest_lookup (OceanSensor.id sensor) db')).
    + unfold get_latest. simpl. rewrite filter_app.
      fold (readings_of (OceanSensor.id sensor) db'). rewrite Hnone.
      simpl. now rewrite String.eqb_refl.
Qed.

Lemma first_reading_of_new_sensor_demo :
  reachable fresh_db
  /\ exists sensor reading db'',
      deploy_sensor "0a1b2c3d4e5f60718293a4b5c6d7e8f9" "Test Buoy" "buoy"
        10 20 100 fresh_db = (inr sensor, db_test_buoy)
      /\ ingest_reading (clock_at "2024-03-01T12:00:00") (OceanSensor.id sensor)
           32 35 8 5 0 None db_test_buoy = (inr reading, db'')
      /\ OceanReading.depth_m reading = 100%Q
      /\ get_latest (OceanSensor.id sensor) db'' = Some reading.
Proof.
  assert (Hreach : reachable fresh_db) by exact (reach_init _ reach_empty).
  split; [exact Hreach|].
  assert (Hdeploy :
            deploy_sensor "0a1b2c3d4e5f60718293a4b5c6d7e8f9" "Test Buoy"
              "buoy" 10 20 100 fresh_db
            = (inr (OceanSensor.mk "S_0A1B2C3D" "Test Buoy" "buoy" 10 20 100
                      "active" None), db_test_buoy)) by reflexivity.
  destruct (first_reading_of_new_sensor _ _ _ _ _ _ _ _ _
              (clock_at "2024-03-01T12:00:00") 32 35 8 5 0 Hreach Hdeploy)
    as (reading & db'' & Hrun & Hdepth & _ & Hlatest).
  eexists. exists reading, db''. split; [exact Hdeploy|].
  repeat split; assumption.
Defined.

(** ** Effective depth, in general *)

(** X23: how an ingest resolves the depth of the reading it returns and
    stores.  Without a depth it is the sensor's nominal depth; with a
    depth other than zero it is the depth supplied; with a depth of zero
    it is the sensor's nominal depth again. *)
Theorem ingest_depth_resolution
  clk sensor_id temp salinity ph o2 current depth (db : Store) :
  In sensor_id (map OceanSensor.id (sensors db)) ->
  exists row reading db',
    fst (select_sensor sensor_id db) = Some row
    /\ ingest_reading clk sensor_id temp salinity ph o2 current depth db
       = (inr reading, db')
    /\ readings db' = readings db ++ [reading]
    /\ (depth = None ->
        OceanReading.depth_m reading = OceanSensor.depth_m row)
    /\ (forall d, depth = Some d -> ~ (d == 0)%Q ->
                  OceanReading.depth_m reading = d)
    /\ (forall d, depth = Some d -> (d == 0)%Q ->
                  OceanReading.depth_m reading = OceanSensor.depth_m row).
Proof.
  intro Hin.
  destruct (select_sensor_present _ _ Hin) as (row & Hsel & _ & _).
  exists row. do 2 eexists. split; [now rewrite Hsel|].
  split; [exact (ingest_reading_found clk sensor_id temp salinity ph o2
                   current depth db row Hsel)|].
  split; [reflexivity|]. unfold ingested. simpl.
  rewrite effective_depth_cases. split; [now intros ->|]. split.
  - intros d -> Hd. destruct (Qeq_bool d 0) eqn:E; [|reflexivity].
    apply Qeq_bool_iff in E. contradiction.
  - intros d -> Hd. apply Qeq_bool_iff in Hd. now rewrite Hd.
Qed.

Lemma ingest_depth_resolution_demo :
  In "S_PACIFIC_01" (map OceanSensor.id (sensors fresh_db))
  /\ ~ (12.5 == 0)%Q
  /\ exists reading db',
      ingest_reading (clock_at "2024-03-01T12:00:00") "S_PACIFIC_01"
        20 35 8 6 0 (Some 12.5%Q) fresh_db = (inr reading, db')
      /\ OceanReading.depth_m reading = 12.5%Q.
Proof.
  assert (Hin : In "S_PACIFIC_01" (map OceanSensor.id (sensors fresh_db)))
    by (simpl; auto).
  assert (Hd : ~ (12.5 == 0)%Q) by (intro H; discriminate H).
  split; [exact Hin|]. split; [exact Hd|].
  destruct (ingest_depth_resolution (clock_at "2024-03-01T12:00:00")
              "S_PACIFIC_01" 20 35 8 6 0 (Some 12.5%Q) fresh_db Hin)
    as (row & reading & db' & _ & Hrun & _ & _ & Hsupplied & _).
  exists reading, db'. split; [exact Hrun|].
  exact (Hsupplied 12.5%Q eq_refl Hd).
Defined.
